(** * Neon Dice 2000: face resolution, rest detection, roll initiation and
      the dice-face texture cache.

    A shallow embedding of [src/physics/dice.js], [src/main.js],
    [src/utils/debug.js] and [src/graphics/textures.js].

    JavaScript numbers that carry physical quantities (quaternion and vector
    components, velocities, impulses, canvas coordinates) are IEEE binary64
    values, embedded as Rocq's primitive [float]; the comparison [a > b] of
    the source is [PrimFloat.ltb b a].  Face labels and hexadecimal colours
    are integer literals in the source and are embedded as [Z].  Objects
    that the source shares by reference (three.js vectors and quaternions,
    textures) live in an explicit store and are named by their index. *)

From Stdlib Require Import ZArith List Bool Lia Floats Uint63.
From Stdlib Require Import String Ascii HexString.
From stdpp Require Import base list strings gmap pretty.

#[local] Set Warnings "-inexact-float".

(** ** A state-and-exception monad

    A computation either returns a value or throws (a JavaScript
    exception carrying a message); both leave a state behind. *)

Inductive outcome (St A : Type) : Type :=
| Returns (a : A) (s : St)
| Throws (e : string) (s : St).
Arguments Returns {St A} a s.
Arguments Throws {St A} e s.

Definition M (St A : Type) : Type := St -> outcome St A.

Definition ret {St A} (a : A) : M St A := fun s => Returns a s.

Definition bind {St A B} (m : M St A) (k : A -> M St B) : M St B :=
  fun s => match m s with
           | Returns a s' => k a s'
           | Throws e s' => Throws e s'
           end.

Definition throw {St A} (e : string) : M St A := fun s => Throws e s.

(** [try { m } catch (error) { handler(error.message) }] *)
Definition try_catch {St A} (m : M St A) (handler : string -> M St A) : M St A :=
  fun s => match m s with
           | Returns a s' => Returns a s'
           | Throws e s' => handler e s'
           end.

Declare Scope js_scope.
Delimit Scope js_scope with js.
Notation "x <- m ;; k" := (bind m (fun x => k))
  (at level 100, m at next level, right associativity) : js_scope.
Notation "m ;;; k" := (bind m (fun _ => k))
  (at level 100, right associativity) : js_scope.
Open Scope js_scope.

(** [arr.forEach((x, index) => body)], the closure's captured [let]
    variables being threaded as the accumulator [acc]. *)
Fixpoint forEach_from {St A Acc} (index : nat) (arr : list A)
    (body : A -> nat -> Acc -> M St Acc) (acc : Acc) : M St Acc :=
  match arr with
  | [] => ret acc
  | x :: rest =>
      acc' <- body x index acc ;;
      forEach_from (S index) rest body acc'
  end.

Definition forEach {St A Acc} (arr : list A)
    (body : A -> nat -> Acc -> M St Acc) (acc : Acc) : M St Acc :=
  forEach_from 0 arr body acc.

(** ** JavaScript values

    What reading a property yields, and the comparison [a < b] of two
    such values: both operands are converted with ToNumber, [undefined]
    to NaN, and the numbers are compared. *)

Module JS.

Inductive Value : Type :=
| Undefined
| Number (n : float).

Definition ToNumber (v : Value) : float :=
  match v with
  | Undefined => nan
  | Number n => n
  end.

(** [a < b] *)
Definition lt (a b : Value) : bool := (ToNumber a <? ToNumber b)%float.

End JS.

(** ** three.js objects *)

Module Three.

(** The store of three.js objects; a reference is an index into it. *)
Inductive obj : Type :=
| Vector3 (x y z : float)
| Quaternion (x y z w : float).

Abbreviation ref := nat.
Abbreviation store := (list obj).

(** [new THREE.Vector3(x, y, z)] *)
Definition new_Vector3 (x y z : float) : M store ref :=
  fun h => Returns (length h) (h ++ [Vector3 x y z]).

(** Modelled from the spec: three.js is not under src/; §4.1 has the
    orientation applied to a vector, which three.js r160 (the version
    config.js loads) computes in [Vector3.applyQuaternion] as
    [v + w t + q × t] with [t = 2 (q × v)], overwriting the receiver and
    assuming [q] has unit length. *)
Definition rotate (v : float * float * float)
    (q : float * float * float * float) : float * float * float :=
  let '(vx, vy, vz) := v in
  let '(qx, qy, qz, qw) := q in
  let tx := (2 * (qy * vz - qz * vy))%float in
  let ty := (2 * (qz * vx - qx * vz))%float in
  let tz := (2 * (qx * vy - qy * vx))%float in
  ((vx + qw * tx + qy * tz - qz * ty)%float,
   (vy + qw * ty + qz * tx - qx * tz)%float,
   (vz + qw * tz + qx * ty - qy * tx)%float).

(** [v.applyQuaternion(q)]: writes the rotated vector into [v]; [q] is
    only read. *)
Definition applyQuaternion (v q : ref) : M store unit :=
  fun h =>
    match h !! v, h !! q with
    | Some (Vector3 vx vy vz), Some (Quaternion qx qy qz qw) =>
        let '(x, y, z) := rotate (vx, vy, vz) (qx, qy, qz, qw) in
        Returns tt (<[v := Vector3 x y z]> h)
    | _, _ => Throws "TypeError" h
    end.

(** Modelled from the spec: three.js's [Vector3.dot], the dot product
    [this.x * v.x + this.y * v.y + this.z * v.z]. *)
Definition dot3 (a b : float * float * float) : float :=
  let '(ax, ay, az) := a in
  let '(bx, by_, bz) := b in
  (ax * bx + ay * by_ + az * bz)%float.

(** [a.dot(b)] *)
Definition dot (a b : ref) : M store float :=
  fun h =>
    match h !! a, h !! b with
    | Some (Vector3 ax ay az), Some (Vector3 bx by_ bz) =>
        Returns (dot3 (ax, ay, az) (bx, by_, bz)) h
    | _, _ => Throws "TypeError" h
    end.

End Three.

(** ** The Rapier rigid body, as the source uses it *)

Module Rapier.

(** [new RAPIER.Vector3(x, y, z)] *)
Record Vector3 : Type := { x : float; y : float; z : float }.

(** Reading the property [name] of a Rapier vector.  Rapier is not
    under src/: config.js loads @dimforge/rapier3d-compat 0.15.0, whose
    vectors are the objects [{x, y, z}] that dice.js reads as [pos.x],
    [pos.y], [pos.z]; any other property is [undefined]. *)
Definition Vector3_get (v : Vector3) (name : string) : JS.Value :=
  if String.eqb name "x" then JS.Number (x v)
  else if String.eqb name "y" then JS.Number (y v)
  else if String.eqb name "z" then JS.Number (z v)
  else JS.Undefined.

(** The part of the rigid-body interface that dice.js calls.  A call
    mutates the body in place; here it maps the body's state to the new
    one.  The boolean is the [wakeUp] argument. *)
Class RigidBody (B : Type) : Type := {
  setTranslation : Vector3 -> bool -> B -> B;
  setLinvel : Vector3 -> bool -> B -> B;
  setAngvel : Vector3 -> bool -> B -> B;
  applyImpulse : Vector3 -> bool -> B -> B;
  applyTorqueImpulse : Vector3 -> bool -> B -> B;
  linvel : B -> Vector3;
  angvel : B -> Vector3
}.

(** A body that records the calls it receives and answers the velocity
    queries with the readings it was given. *)
Inductive Call : Type :=
| SetTranslation (v : Vector3) (wakeUp : bool)
| SetLinvel (v : Vector3) (wakeUp : bool)
| SetAngvel (v : Vector3) (wakeUp : bool)
| ApplyImpulse (v : Vector3) (wakeUp : bool)
| ApplyTorqueImpulse (v : Vector3) (wakeUp : bool).

Record Recorded : Type := {
  calls : list Call;
  linvel_reading : Vector3;
  angvel_reading : Vector3
}.

Definition record (c : Call) (b : Recorded) : Recorded :=
  {| calls := calls b ++ [c];
     linvel_reading := linvel_reading b;
     angvel_reading := angvel_reading b |}.

#[global] Instance Recorded_RigidBody : RigidBody Recorded := {
  setTranslation v w := record (SetTranslation v w);
  setLinvel v w := record (SetLinvel v w);
  setAngvel v w := record (SetAngvel v w);
  applyImpulse v w := record (ApplyImpulse v w);
  applyTorqueImpulse v w := record (ApplyTorqueImpulse v w);
  linvel := linvel_reading;
  angvel := angvel_reading
}.

(** A recording body that reports the given linear and angular
    velocities. *)
Definition at_velocity (linear angular : Vector3) : Recorded :=
  {| calls := []; linvel_reading := linear; angvel_reading := angular |}.

(** A recording body that does not move. *)
Definition still : Recorded :=
  at_velocity (Build_Vector3 0 0 0) (Build_Vector3 0 0 0).

End Rapier.

(** ** src/config.js *)

Module Config.
#[local] Open Scope Z_scope.

(** [PHYSICS.floorSize]: the half-extents of the floor collider, which
    world.js centres at the origin. *)
Definition PHYSICS_floorSize : Rapier.Vector3 :=
  Rapier.Build_Vector3 80 0.1 80.

(** [DICE_COLORS]: pink and cyan. *)
Definition DICE_COLORS : list Z := [0xff00ff; 0x00ffff].

End Config.

(** ** src/physics/dice.js *)

Module Dice.
Import Three.

(** [const faceNumbers = [1, 6, 2, 5, 3, 4]]: right, left, top, bottom,
    front, back. *)
Definition faceNumbers : list Z := [1; 6; 2; 5; 3; 4]%Z.

(** The components of the six vectors of the [normals] array literal of
    [getCurrentValue], in source order. *)
Definition normals : list (float * float * float) :=
  [ (1, 0, 0); (-1, 0, 0);
    (0, 1, 0); (0, -1, 0);
    (0, 0, 1); (0, 0, -1) ]%float.

(** What [getCurrentValue] closes over: the reference held in
    [diceMesh.quaternion]. *)
Record Die : Type := { mesh_quaternion : ref }.

(** Evaluating the array literal allocates its six vectors in order. *)
Fixpoint new_normals (ns : list (float * float * float)) : M store (list ref) :=
  match ns with
  | [] => ret []
  | (x, y, z) :: rest =>
      r <- new_Vector3 x y z ;;
      rs <- new_normals rest ;;
      ret (r :: rs)
  end.

(** The body of the [forEach] callback; the accumulator is the pair of
    the captured variables [(maxAlignment, faceIndex)]. *)
Definition checkAlignment (upVector : ref) (normal : ref) (index : nat)
    (acc : float * nat) : M store (float * nat) :=
  let '(maxAlignment, faceIndex) := acc in
  alignment <- dot upVector normal ;;
  if (maxAlignment <? alignment)%float
  then ret (alignment, index)
  else ret (maxAlignment, faceIndex).

(** [getCurrentValue()]; the result is [faceNumbers[faceIndex]], [None]
    standing for [undefined]. *)
Definition getCurrentValue (d : Die) : M store (option Z) :=
  let diceRotation := mesh_quaternion d in
  upVector <- new_Vector3 0 1 0 ;;
  applyQuaternion upVector diceRotation ;;;
  ns <- new_normals normals ;;
  r <- forEach ns (checkAlignment upVector) ((-1)%float, 0%nat) ;;
  ret (faceNumbers !! (snd r)).

(** The methods of the controller object [createDice] returns, over the
    die's rigid body. *)
Section Controller.
Context {B : Type} `{Rapier.RigidBody B}.

(** [reset(x, y, z)] *)
Definition reset (x y z : float) (body : B) : B :=
  let body := Rapier.setTranslation (Rapier.Build_Vector3 x y z) true body in
  let body := Rapier.setLinvel (Rapier.Build_Vector3 0 0 0) true body in
  Rapier.setAngvel (Rapier.Build_Vector3 0 0 0) true body.

(** [applyImpulse(x, y, z)] *)
Definition applyImpulse (x y z : float) (body : B) : B :=
  Rapier.applyImpulse (Rapier.Build_Vector3 x y z) true body.

(** [applyTorque(x, y, z)] *)
Definition applyTorque (x y z : float) (body : B) : B :=
  Rapier.applyTorqueImpulse (Rapier.Build_Vector3 x y z) true body.

(** [isAtRest()] *)
Definition isAtRest (body : B) : bool :=
  let velocityThreshold := 0.1%float in
  let angularVelocityThreshold := 0.1%float in
  JS.lt (Rapier.Vector3_get (Rapier.linvel body) "length")
        (JS.Number velocityThreshold)
  && JS.lt (Rapier.Vector3_get (Rapier.angvel body) "length")
           (JS.Number angularVelocityThreshold).

End Controller.

End Dice.

(** ** src/main.js *)

Module Main.

(** The source of [Math.random()]: the sequence of numbers it will
    return and how many have been drawn. *)
Record Rng : Type := { draws : nat -> float; drawn : nat }.

Definition Math_random : M Rng float :=
  fun r => Returns (draws r (drawn r))
                   {| draws := draws r; drawn := S (drawn r) |}.

(** The array index [forEach] passes, as a JavaScript number. *)
Definition Number (index : nat) : float :=
  PrimFloat.of_uint63 (Uint63.of_Z (Z.of_nat index)).

Section Roll.
Context {B : Type} `{Rapier.RigidBody B}.

(** The callback of [dice.forEach] in [rollDice]. *)
Definition rollDie (die : B) (index : nat) : M Rng B :=
  let offsetX := (Number index * 0.5)%float in
  let offsetZ := (Number index * 0.3)%float in
  let height := (8 + Number index * 2)%float in
  let die := Dice.reset (10 + offsetX) height (10 + offsetZ) die in
  r <- Math_random ;;
  let force := (15 + r * 3)%float in
  ry <- Math_random ;;
  rz <- Math_random ;;
  let die := Dice.applyImpulse
               (- force) (5 + ry * 2) (- force * (0.8 + rz * 0.4)) die in
  tx <- Math_random ;;
  ty <- Math_random ;;
  tz <- Math_random ;;
  let die := Dice.applyTorque
               ((tx - 0.5) * 10) ((ty - 0.5) * 10) ((tz - 0.5) * 10) die in
  ret die.

(** [rollDice()]: the dice are rolled in array order; the result is
    the array of their bodies after the calls. *)
Definition rollDice (dice : list B) : M Rng (list B) :=
  forEach dice
    (fun die index rolled => die' <- rollDie die index ;; ret (rolled ++ [die']))
    [].

End Roll.

End Main.

(** ** src/utils/debug.js *)

Module Debug.

(** The module variables [debugEnabled] and [debugElement] (the
    [innerHTML] of the debug panel when the variable holds the element),
    the lines written with [console.log], and the string
    [new Date().toLocaleTimeString()] currently gives. *)
Record State : Type := {
  debugEnabled : bool;
  debugElement : option string;
  console : list string;
  clock : string
}.

(** [s.split(sep)] for a separator of one character or more; [skip]
    counts the characters of a separator still to pass over and [cur]
    is the piece being read. *)
Fixpoint split_go (sep : string) (skip : nat) (s cur : string) : list string :=
  match s with
  | EmptyString => [cur]
  | String c rest =>
      match skip with
      | S k => split_go sep k rest cur
      | O =>
          if String.prefix sep s
          then cur :: split_go sep (String.length sep - 1) rest EmptyString
          else split_go sep 0 rest (cur +:+ String c EmptyString)
      end
  end.

Definition split (sep s : string) : list string :=
  split_go sep 0 s EmptyString.

(** [pieces.join(sep)] *)
Fixpoint join (sep : string) (pieces : list string) : string :=
  match pieces with
  | [] => EmptyString
  | [piece] => piece
  | piece :: rest => piece +:+ sep +:+ join sep rest
  end.

(** [log(message)] *)
Definition log (message : string) : State -> State :=
  fun st =>
    if negb (debugEnabled st) then st
    else
      let console' := console st ++ ["[DEBUG] " +:+ message] in
      match debugElement st with
      | Some innerHTML =>
          let timestamp := clock st in
          {| debugEnabled := debugEnabled st;
             debugElement :=
               Some (join "<br>"
                       (take 10 (split "<br>"
                          (timestamp +:+ ": " +:+ message +:+ "<br>" +:+ innerHTML))));
             console := console';
             clock := clock st |}
      | None =>
          {| debugEnabled := debugEnabled st;
             debugElement := None;
             console := console';
             clock := clock st |}
      end.

End Debug.

(** ** src/graphics/textures.js *)

Module Textures.
#[local] Open Scope Z_scope.

(** What is done to a canvas 2D context, in order: property
    assignments and method calls. *)
Inductive Cmd : Type :=
| fillStyle (style : string)
| fillRect (x y w h : float)
| shadowColor (color : string)
| shadowBlur (blur : float)
| shadowOffsetX (dx : float)
| shadowOffsetY (dy : float)
| beginPath
| arc (x y radius startAngle endAngle : float)
| fill
| font (f : string)
| textAlign (a : string)
| textBaseline (b : string)
| fillText (text : string) (x y : float).

Record Canvas : Type := { width : float; height : float; commands : list Cmd }.

Inductive Texture : Type :=
| CanvasTexture (canvas : Canvas)
| LoadedTexture (url : string).

(** The module's state: the cache object [diceFaceCache], the textures
    created so far (a texture is referred to by its index here), the
    number of canvases created, whether the n-th canvas will give a 2D
    context, and the state of the debug module. *)
Record State : Type := {
  diceFaceCache : gmap string nat;
  textures : list Texture;
  canvases : nat;
  context2d : nat -> bool;
  debug : Debug.State
}.

Definition set_debug (f : Debug.State -> Debug.State) (st : State) : State :=
  {| diceFaceCache := diceFaceCache st;
     textures := textures st;
     canvases := canvases st;
     context2d := context2d st;
     debug := f (debug st) |}.

(** The imported [log]. *)
Definition log (message : string) : M State unit :=
  fun st => Returns tt (set_debug (Debug.log message) st).

(** [document.createElement('canvas')] followed by
    [canvas.getContext('2d')]: tells whether a context was obtained. *)
Definition getContext : M State bool :=
  fun st =>
    Returns (context2d st (canvases st))
            {| diceFaceCache := diceFaceCache st;
               textures := textures st;
               canvases := S (canvases st);
               context2d := context2d st;
               debug := debug st |}.

(** [new THREE.CanvasTexture(canvas)] and [TextureLoader().load(url)]:
    a new texture object. *)
Definition new_Texture (t : Texture) : M State nat :=
  fun st =>
    Returns (List.length (textures st))
            {| diceFaceCache := diceFaceCache st;
               textures := textures st ++ [t];
               canvases := canvases st;
               context2d := context2d st;
               debug := debug st |}.

(** [diceFaceCache[cacheKey]] *)
Definition cache_get (cacheKey : string) : M State (option nat) :=
  fun st => Returns (diceFaceCache st !! cacheKey) st.

(** [diceFaceCache[cacheKey] = texture] *)
Definition cache_set (cacheKey : string) (texture : nat) : M State unit :=
  fun st =>
    Returns tt
            {| diceFaceCache := <[cacheKey := texture]> (diceFaceCache st);
               textures := textures st;
               canvases := canvases st;
               context2d := context2d st;
               debug := debug st |}.

(** [n.toString(16)] for an integer. *)
Definition toString16 (n : Z) : string :=
  match n with
  | Z0 => "0"
  | Zpos p => HexString.Raw.of_pos p EmptyString
  | Zneg p => "-" +:+ HexString.Raw.of_pos p EmptyString
  end.

(** [s.padStart(targetLength, "0")] *)
Definition padStart0 (targetLength : nat) (s : string) : string :=
  String.concat EmptyString
    (replicate (targetLength - String.length s)%nat "0"%string) +:+ s.

Definition hexColor (color : Z) : string :=
  "#" +:+ padStart0 6 (toString16 color).

(** [Math.PI * 2] *)
Definition Math_PI_2 : float := (3.141592653589793 * 2)%float.

(** [drawPip(ctx, x, y, radius)] *)
Definition drawPip (x y radius : float) : list Cmd :=
  [beginPath; arc x y radius 0 Math_PI_2; fill].

(** [createFallbackTexture(THREE, value, color)] *)
Definition createFallbackTexture (value color : Z) : M State nat :=
  let hexColor := hexColor color in
  let size := 64%float in
  ctx <- getContext ;;
  if negb ctx then
    new_Texture (LoadedTexture
      "data:image/png;base64,iVBORw0KGgoAAAANSUhEUgAAAAEAAAABCAYAAAAfFcSJAAAADUlEQVR42mP8z8BQDwAEhQGAhKmMIQAAAABJRU5ErkJggg==")
  else
    new_Texture (CanvasTexture
      {| width := size; height := size;
         commands :=
           [ fillStyle "#000000"; fillRect 0 0 size size;
             fillStyle hexColor; font "bold 32px Arial";
             textAlign "center"; textBaseline "middle";
             fillText (pretty value) (size / 2) (size / 2) ] |}).

(** [generateDiceFaceTexture(THREE, value, color)] *)
Definition generateDiceFaceTexture (value color : Z) : M State nat :=
  try_catch
    (let size := 256%float in
     ctx <- getContext ;;
     if negb ctx then throw "Could not get 2D context for dice texture"
     else
       let hexColor := hexColor color in
       let setup :=
         [ fillStyle "#000000"; fillRect 0 0 size size;
           shadowColor hexColor; shadowBlur 20;
           shadowOffsetX 0; shadowOffsetY 0 ] in
       let center := (size / 2)%float in
       let offset := (size / 4)%float in
       let pipRadius := (size / 14)%float in
       let setup := setup ++ [fillStyle "white"] in
       pips <-
         match value with
         | 1 => ret (drawPip center center pipRadius)
         | 2 => ret (drawPip (center + offset) (center - offset) pipRadius
                     ++ drawPip (center - offset) (center + offset) pipRadius)
         | 3 => ret (drawPip (center - offset) (center - offset) pipRadius
                     ++ drawPip center center pipRadius
                     ++ drawPip (center + offset) (center + offset) pipRadius)
         | 4 => ret (drawPip (center - offset) (center - offset) pipRadius
                     ++ drawPip (center + offset) (center - offset) pipRadius
                     ++ drawPip (center - offset) (center + offset) pipRadius
                     ++ drawPip (center + offset) (center + offset) pipRadius)
         | 5 => ret (drawPip (center - offset) (center - offset) pipRadius
                     ++ drawPip (center + offset) (center - offset) pipRadius
                     ++ drawPip center center pipRadius
                     ++ drawPip (center - offset) (center + offset) pipRadius
                     ++ drawPip (center + offset) (center + offset) pipRadius)
         | 6 => ret (drawPip (center - offset) (center - offset) pipRadius
                     ++ drawPip (center - offset) center pipRadius
                     ++ drawPip (center - offset) (center + offset) pipRadius
                     ++ drawPip (center + offset) (center - offset) pipRadius
                     ++ drawPip (center + offset) center pipRadius
                     ++ drawPip (center + offset) (center + offset) pipRadius)
         | _ =>
             log ("Warning: Invalid dice value " +:+ pretty value
                  +:+ ", defaulting to 1") ;;;
             ret (drawPip center center pipRadius)
         end ;;
       new_Texture (CanvasTexture
         {| width := size; height := size; commands := setup ++ pips |}))
    (fun error_message =>
       log ("Error creating dice face texture: " +:+ error_message) ;;;
       createFallbackTexture value color).

(** [createDiceFaceTexture(THREE, value, color)]; a texture is an
    object, so the test [if (diceFaceCache[cacheKey])] succeeds exactly
    when the key is present. *)
Definition createDiceFaceTexture (value color : Z) : M State nat :=
  let cacheKey := "face_" +:+ pretty value +:+ "_" +:+ pretty color in
  cached <- cache_get cacheKey ;;
  match cached with
  | Some texture => ret texture
  | None =>
      texture <- generateDiceFaceTexture value color ;;
      cache_set cacheKey texture ;;;
      ret texture
  end.

End Textures.

(** ** The face resolver as a function of the orientation

    What [getCurrentValue] computes from the numbers stored in
    [diceMesh.quaternion] (lemma [getCurrentValue_run] below), next to the
    resolver the specification describes. *)

Module FaceResolver.
Import Three Dice.

Abbreviation vec := (float * float * float)%type.
Abbreviation quat := (float * float * float * float)%type.

Definition vec3 (n : vec) : obj := let '(x, y, z) := n in Vector3 x y z.

(** The value of [upVector] after [applyQuaternion]. *)
Definition upVector (q : quat) : vec := rotate (0, 1, 0)%float q.

(** [upVector.dot(normals[index])], the alignment the loop compares. *)
Definition alignment (q : quat) (index : nat) : float :=
  match normals !! index with
  | Some n => dot3 (upVector q) n
  | None => nan
  end.

(** The loop over the normals from position [index] on, on the pair
    [(maxAlignment, faceIndex)]. *)
Fixpoint scan (up : vec) (index : nat) (ns : list vec)
    (acc : float * nat) : float * nat :=
  match ns with
  | [] => acc
  | n :: rest =>
      let a := dot3 up n in
      scan up (S index) rest
        (if (fst acc <? a)%float then (a, index) else acc)
  end.

Definition faceIndex (q : quat) : nat :=
  snd (scan (upVector q) 0 normals ((-1)%float, 0%nat)).

(** The specification's resolver, in its words: each local face normal
    is transformed into world space by the orientation, its dot product
    with world-up (0,1,0) is taken, and the face with the maximum is
    selected, the lowest label winning a tie. *)
Definition worldAlignment (q : quat) (localNormal : vec) : float :=
  dot3 (rotate localNormal q) (0, 1, 0)%float.

Definition better (candidate best : float * Z) : bool :=
  (fst best <? fst candidate)%float
  || ((fst candidate =? fst best)%float && (snd candidate <? snd best)%Z).

Definition resolveFace (orientation : quat) (faceAssignment : list (vec * Z))
    : option Z :=
  match map (fun f => (worldAlignment orientation (fst f), snd f)) faceAssignment with
  | [] => None
  | first :: others =>
      Some (snd (fold_left (fun best c => if better c best then c else best)
                           others first))
  end.

(** The assignment dice.js fixes: [normals[i]] carries [faceNumbers[i]]. *)
Definition faceAssignment : list (vec * Z) := zip normals faceNumbers.

(** [Math.SQRT1_2], the sine and cosine of 45 degrees. *)
Definition SQRT1_2 : float := 0x1.6a09e667f3bcdp-1%float.

(** For each face, in the order of [normals], the axis-aligned unit
    quaternion that turns its normal onto world-up: a quarter turn about
    Z for right and left, the identity for top, a half turn about X for
    bottom, a quarter turn about X for front and back. *)
Definition faceUp : list quat :=
  [ (0, 0, SQRT1_2, SQRT1_2); (0, 0, - SQRT1_2, SQRT1_2);
    (0, 0, 0, 1); (1, 0, 0, 0);
    (- SQRT1_2, 0, 0, SQRT1_2); (SQRT1_2, 0, 0, SQRT1_2) ]%float.

(** A quaternion of unit length, up to the rounding of its components:
    the squares sum to 1 within 2^-51. *)
Definition unitLength (q : quat) : bool :=
  let '(x, y, z, w) := q in
  (abs (x * x + y * y + z * z + w * w - 1) <=? 0x1p-51)%float.

(** A die whose mesh quaternion holds [q], alone in the store. *)
Definition oriented (q : quat) : Die * store :=
  let '(x, y, z, w) := q in ({| mesh_quaternion := 0 |}, [Quaternion x y z w]).

(** The label [getCurrentValue] returns for orientation [q]. *)
Definition valueAt (q : quat) : option Z :=
  let '(d, h) := oriented q in
  match getCurrentValue d h with
  | Returns v _ => v
  | Throws _ _ => None
  end.

(** IEEE equality of vectors, and the test for opposite directions. *)
Definition vec_eqb (a b : vec) : bool :=
  let '(ax, ay, az) := a in
  let '(bx, by_, bz) := b in
  (ax =? bx)%float && (ay =? by_)%float && (az =? bz)%float.

Definition opposite (a b : vec) : bool :=
  let '(ax, ay, az) := a in vec_eqb (- ax, - ay, - az)%float b.

(** The six axis-aligned directions +X, -X, +Y, -Y, +Z, -Z. *)
Definition axisDirections : list vec :=
  flat_map (fun e => [e; let '(x, y, z) := e in (- x, - y, - z)%float])
           [ (1, 0, 0); (0, 1, 0); (0, 0, 1) ]%float.

(** The specification's settledness predicate, in its words: true iff
    the linear speed is below the linear threshold and the angular speed
    is below the angular threshold. *)
Definition isSettled (linearSpeed angularSpeed linearThreshold angularThreshold : float)
    : bool :=
  (linearSpeed <? linearThreshold)%float
  && (angularSpeed <? angularThreshold)%float.

(** The specification's speed of a body: the magnitude of its velocity
    vector. *)
Definition speed (v : Rapier.Vector3) : float :=
  PrimFloat.sqrt (Rapier.x v * Rapier.x v + Rapier.y v * Rapier.y v
                  + Rapier.z v * Rapier.z v).

(** The labels assigned to direction [v]. *)
Definition labelsOf (v : vec) : list Z :=
  map snd (filter (fun f => vec_eqb (fst f) v = true) faceAssignment).

End FaceResolver.

(** ** Which faces attain the maximum alignment *)

Module Ties.
Import Dice FaceResolver.

(** Under the alignments [a], no face has an alignment greater than that
    of face [i]. *)
Definition attainsMaxBy (a : nat -> float) (i : nat) : bool :=
  forallb (fun k => negb (a i <? a k)%float) (seq 0 (length normals)).

(** The labels of the faces that attain the maximum, in table order. *)
Definition tiedLabelsBy (a : nat -> float) : list Z :=
  omap (fun i => if attainsMaxBy a i then faceNumbers !! i else None)
       (seq 0 (length normals)).

(** With the alignments [upVector.dot(normal)] the loop compares. *)
Definition attainsMax (q : quat) (i : nat) : bool :=
  attainsMaxBy (alignment q) i.

Definition tiedLabels (q : quat) : list Z := tiedLabelsBy (alignment q).

(** With the alignments of the specification: the world-space normal of
    each face against world-up. *)
Definition worldTiedLabels (q : quat) : list Z :=
  tiedLabelsBy (fun i => match normals !! i with
                         | Some n => worldAlignment q n
                         | None => nan
                         end).

(** Every face before [i] in the table has a strictly smaller
    alignment. *)
Definition aboveEarlier (q : quat) (i : nat) : bool :=
  forallb (fun k => (alignment q k <? alignment q i)%float) (seq 0 i).

(** The lowest label of a list. *)
Definition lowest (labels : list Z) : option Z :=
  match labels with
  | [] => None
  | l :: ls => Some (fold_left Z.min ls l)
  end.

(** A quarter of a quarter turn about Z, [(0, 0, sin 22.5, cos 22.5)]
    up to the last bit of the cosine: the left and the top face come
    out with the same alignment. *)
Definition edgeOn : quat :=
  (0, 0, 0.3826834323650898, 0.9238795325112866)%float.

End Ties.

(** ** The calls a roll makes *)

Module RollTrace.
Import Rapier Main.

(** The calls one roll makes on the body of the die at position [index],
    [r j] being the j-th number [Math.random()] returns during that die's
    turn. *)
Definition rollCalls (index : nat) (r : nat -> float) : list Call :=
  let force := (15 + r 0%nat * 3)%float in
  [ SetTranslation
      (Build_Vector3 (10 + Number index * 0.5) (8 + Number index * 2)
                     (10 + Number index * 0.3)) true;
    SetLinvel (Build_Vector3 0 0 0) true;
    SetAngvel (Build_Vector3 0 0 0) true;
    ApplyImpulse
      (Build_Vector3 (- force) (5 + r 1%nat * 2) (- force * (0.8 + r 2%nat * 0.4)))
      true;
    ApplyTorqueImpulse
      (Build_Vector3 ((r 3%nat - 0.5) * 10) ((r 4%nat - 0.5) * 10)
                     ((r 5%nat - 0.5) * 10)) true ].

(** A recording body after its turn, the first draw of the turn being
    the [k]-th of the generator. *)
Definition rolled (draws : nat -> float) (k : nat) (index : nat)
    (die : Recorded) : Recorded :=
  {| calls := calls die ++ rollCalls index (fun j => draws (j + k)%nat);
     linvel_reading := linvel_reading die;
     angvel_reading := angvel_reading die |}.

Fixpoint rolledFrom (draws : nat -> float) (k index : nat)
    (dice : list Recorded) : list Recorded :=
  match dice with
  | [] => []
  | die :: rest =>
      rolled draws k index die :: rolledFrom draws (6 + k) (S index) rest
  end.

End RollTrace.

(** ** The face drawn for an invalid value *)

Module Pips.
Import Textures.

(** The canvas [generateDiceFaceTexture] draws for face 1: the black
    background, the glow in the die's colour, and one pip at the centre. *)
Definition singlePipCanvas (color : Z) : Canvas :=
  {| width := 256; height := 256;
     commands :=
       [ fillStyle "#000000"; fillRect 0 0 256 256;
         shadowColor (hexColor color); shadowBlur 20;
         shadowOffsetX 0; shadowOffsetY 0; fillStyle "white" ]
       ++ drawPip 128 128 (256 / 14) |}.

Definition invalidValueWarning (value : Z) : string :=
  "Warning: Invalid dice value " +:+ pretty value +:+ ", defaulting to 1".

(** A state with an empty cache and no texture yet, in which every
    canvas gives a 2D context. *)
Definition fresh (debugEnabled : bool) : State :=
  {| diceFaceCache := ∅; textures := []; canvases := 0;
     context2d := fun _ => true;
     debug := {| Debug.debugEnabled := debugEnabled;
                 Debug.debugElement := None;
                 Debug.console := [];
                 Debug.clock := "12:00:00" |} |}.

End Pips.

(** ** The cache key and the pips of a face *)

Module FaceCanvas.
Import Textures.

(** The key [createDiceFaceTexture] computes for a pair. *)
Definition cacheKey (value color : Z) : string :=
  "face_" +:+ pretty value +:+ "_" +:+ pretty color.

(** Whether the character [c] occurs in [s]. *)
Fixpoint occurs (c : ascii) (s : string) : bool :=
  match s with
  | EmptyString => false
  | String c' rest => Ascii.eqb c c' || occurs c rest
  end.

(** Every entry of the cache refers to a texture that exists. *)
Definition cacheValid (st : State) : Prop :=
  forall key texture,
    diceFaceCache st !! key = Some texture ->
    (texture < length (textures st))%nat.

(** No texture is cached under two keys. *)
Definition cacheInjective (st : State) : Prop :=
  forall key1 key2 texture,
    diceFaceCache st !! key1 = Some texture ->
    diceFaceCache st !! key2 = Some texture ->
    key1 = key2.

(** From [st] to [st'] nothing cached is replaced or dropped, and no
    texture is altered or removed. *)
Definition grows (st st' : State) : Prop :=
  (forall key t, diceFaceCache st !! key = Some t ->
                 diceFaceCache st' !! key = Some t)
  /\ (forall i tex, textures st !! i = Some tex -> textures st' !! i = Some tex).

(** The circles drawn on a canvas: centre and radius of each [arc]. *)
Definition pips (canvas : Canvas) : list (float * float * float) :=
  omap (fun c => match c with
                 | arc x y radius _ _ => Some (x, y, radius)
                 | _ => None
                 end)
       (commands canvas).

(** A pip lies within the canvas. *)
Definition inside (canvas : Canvas) (p : float * float * float) : bool :=
  let '(x, y, r) := p in
  (r <=? x)%float && (x + r <=? width canvas)%float
  && (r <=? y)%float && (y + r <=? height canvas)%float.

(** Two pips are apart: their centres differ by at least the two radii
    along one axis. *)
Definition apart (p q : float * float * float) : bool :=
  let '(x1, y1, r1) := p in
  let '(x2, y2, r2) := q in
  (r1 + r2 <=? abs (x1 - x2))%float || (r1 + r2 <=? abs (y1 - y2))%float.

Fixpoint pairwiseApart (ps : list (float * float * float)) : bool :=
  match ps with
  | [] => true
  | p :: rest => forallb (apart p) rest && pairwiseApart rest
  end.

(** The image of a pip under the half turn about the canvas centre. *)
Definition halfTurn (canvas : Canvas) (p : float * float * float)
    : float * float * float :=
  let '(x, y, r) := p in ((width canvas - x)%float, (height canvas - y)%float, r).

Definition samePip (p q : float * float * float) : bool :=
  let '(x1, y1, r1) := p in
  let '(x2, y2, r2) := q in
  (x1 =? x2)%float && (y1 =? y2)%float && (r1 =? r2)%float.

(** Pips within the canvas, pairwise apart, and the pattern unchanged by
    the half turn. *)
Definition wellLaidOut (canvas : Canvas) : bool :=
  forallb (inside canvas) (pips canvas)
  && pairwiseApart (pips canvas)
  && forallb (fun p => existsb (samePip (halfTurn canvas p)) (pips canvas))
             (pips canvas).

(** The text a fallback canvas shows. *)
Definition texts (canvas : Canvas) : list string :=
  omap (fun c => match c with fillText t _ _ => Some t | _ => None end)
       (commands canvas).

End FaceCanvas.

(** ** src/physics/dice.js: the materials of [createDice] *)

Module Materials.
Import Textures.

(** [new THREE.MeshStandardMaterial({...})]; [emissiveMap] refers to a
    texture. *)
Record Material : Type := {
  color : Z;
  emissive : Z;
  emissiveMap : nat;
  emissiveIntensity : float;
  roughness : float;
  metalness : float
}.

(** The texture module together with the material objects created so
    far: every [new THREE.MeshStandardMaterial] makes a new object, named
    here by its position in [created]. *)
Record State : Type := {
  textureState : Textures.State;
  created : list Material
}.

(** A computation of the texture module, run within [State]. *)
Definition onTextures {A} (m : M Textures.State A) : M State A :=
  fun st =>
    match m (textureState st) with
    | Returns a s => Returns a {| textureState := s; created := created st |}
    | Throws e s => Throws e {| textureState := s; created := created st |}
    end.

(** [new THREE.MeshStandardMaterial(parameters)] *)
Definition new_MeshStandardMaterial (parameters : Material) : M State nat :=
  fun st =>
    Returns (length (created st))
            {| textureState := textureState st;
               created := created st ++ [parameters] |}.

(** The loop [for (const number of faceNumbers)] of [createDice], which
    fills the array [materials]. *)
Definition createMaterials (color : Z) : M State (list nat) :=
  forEach Dice.faceNumbers
    (fun number _ materials =>
       texture <- onTextures (createDiceFaceTexture number color) ;;
       material <- new_MeshStandardMaterial
                     {| color := 0x000000;
                        emissive := color;
                        emissiveMap := texture;
                        emissiveIntensity := 1;
                        roughness := 0.3;
                        metalness := 0.7 |} ;;
       ret (materials ++ [material]))
    [].

(** The material of a face of a die of colour [color] showing
    [texture]. *)
Definition faceMaterial (color : Z) (texture : nat) : Material :=
  {| color := 0x000000;
     emissive := color;
     emissiveMap := texture;
     emissiveIntensity := 1;
     roughness := 0.3;
     metalness := 0.7 |}.

End Materials.

(** ** src/physics/dice.js: [update] and [getValue] *)

Module DiceController.
Import Three Dice.

(** The quaternion [body.rotation()] returns. *)
Record Rotation : Type := { x : float; y : float; z : float; w : float }.

(** The part of the rigid-body interface [update] reads. *)
Class PosedBody (B : Type) : Type := {
  translation : B -> Rapier.Vector3;
  rotation : B -> Rotation
}.

(** [v.set(x, y, z)] *)
Definition Vector3_set (v : ref) (x y z : float) : M store unit :=
  fun h =>
    match h !! v with
    | Some (Vector3 _ _ _) => Returns tt (<[v := Vector3 x y z]> h)
    | _ => Throws "TypeError" h
    end.

(** [q.set(x, y, z, w)] *)
Definition Quaternion_set (q : ref) (x y z w : float) : M store unit :=
  fun h =>
    match h !! q with
    | Some (Quaternion _ _ _ _) => Returns tt (<[q := Quaternion x y z w]> h)
    | _ => Throws "TypeError" h
    end.

(** [v.copy(source)] *)
Definition Vector3_copy (v source : ref) : M store unit :=
  fun h =>
    match h !! v, h !! source with
    | Some (Vector3 _ _ _), Some (Vector3 x y z) =>
        Returns tt (<[v := Vector3 x y z]> h)
    | _, _ => Throws "TypeError" h
    end.

(** [v.y += d] *)
Definition Vector3_add_y (v : ref) (d : float) : M store unit :=
  fun h =>
    match h !! v with
    | Some (Vector3 x y z) => Returns tt (<[v := Vector3 x (y + d) z]> h)
    | _ => Throws "TypeError" h
    end.

(** What the controller's methods close over: the die's mesh quaternion
    (in [die]), [diceMesh.position] and [pointLight.position]. *)
Record Controller : Type := {
  die : Die;
  mesh_position : ref;
  light_position : ref
}.

(** The state [update] works on: the three.js objects and the debug
    module. *)
Abbreviation World := (store * Debug.State)%type.

Definition onStore {A} (m : M store A) : M World A :=
  fun s =>
    match m (fst s) with
    | Returns a h => Returns a (h, snd s)
    | Throws e h => Throws e (h, snd s)
    end.

Definition log (message : string) : M World unit :=
  fun s => Returns tt (fst s, Debug.log message (snd s)).

(** [`${value}`] for what [getCurrentValue] returns. *)
Definition showValue (value : option Z) : string :=
  match value with
  | Some n => pretty n
  | None => "undefined"
  end.

Section Methods.
Context {B : Type} `{Rapier.RigidBody B} `{PosedBody B}.

(** [update()]; [PHYSICS_dice_debug] is the flag [PHYSICS.dice.debug]
    of config.js. *)
Definition update (PHYSICS_dice_debug : bool) (c : Controller) (body : B)
    : M World unit :=
  let pos := translation body in
  onStore (Vector3_set (mesh_position c)
             (Rapier.x pos) (Rapier.y pos) (Rapier.z pos)) ;;;
  let rot := rotation body in
  onStore (Quaternion_set (mesh_quaternion (die c))
             (x rot) (y rot) (z rot) (w rot)) ;;;
  onStore (Vector3_copy (light_position c) (mesh_position c)) ;;;
  onStore (Vector3_add_y (light_position c) 2) ;;;
  if PHYSICS_dice_debug then
    if isAtRest body then
      value <- onStore (getCurrentValue (die c)) ;;
      log ("Dice value: " +:+ showValue value)
    else ret tt
  else ret tt.

(** [getValue()] *)
Definition getValue (c : Controller) : M World (option Z) :=
  onStore (getCurrentValue (die c)).

End Methods.

(** A body that reports a fixed pose and fixed velocities. *)
Record Posed : Type := {
  pose_translation : Rapier.Vector3;
  pose_rotation : Rotation;
  pose_body : Rapier.Recorded
}.

#[global] Instance Posed_RigidBody : Rapier.RigidBody Posed := {
  setTranslation v w b :=
    {| pose_translation := pose_translation b; pose_rotation := pose_rotation b;
       pose_body := Rapier.setTranslation v w (pose_body b) |};
  setLinvel v w b :=
    {| pose_translation := pose_translation b; pose_rotation := pose_rotation b;
       pose_body := Rapier.setLinvel v w (pose_body b) |};
  setAngvel v w b :=
    {| pose_translation := pose_translation b; pose_rotation := pose_rotation b;
       pose_body := Rapier.setAngvel v w (pose_body b) |};
  applyImpulse v w b :=
    {| pose_translation := pose_translation b; pose_rotation := pose_rotation b;
       pose_body := Rapier.applyImpulse v w (pose_body b) |};
  applyTorqueImpulse v w b :=
    {| pose_translation := pose_translation b; pose_rotation := pose_rotation b;
       pose_body := Rapier.applyTorqueImpulse v w (pose_body b) |};
  linvel b := Rapier.linvel (pose_body b);
  angvel b := Rapier.angvel (pose_body b)
}.

#[global] Instance Posed_PosedBody : PosedBody Posed := {
  translation := pose_translation;
  rotation := pose_rotation
}.

(** A die lying still at (1, 0.75, 2), bottom face up, with its mesh at
    the origin in the store: quaternion, mesh position, light position. *)
Definition flipped : Posed :=
  {| pose_translation := Rapier.Build_Vector3 1 0.75 2;
     pose_rotation := {| x := 1; y := 0; z := 0; w := 0 |};
     pose_body := Rapier.still |}.

Definition controller0 : Controller :=
  {| die := {| mesh_quaternion := 0 |}; mesh_position := 1; light_position := 2 |}.

Definition store0 : store :=
  [Quaternion 0 0 0 1; Vector3 0 5 0; Vector3 0 0 0].

(** The debug module switched on, without a panel. *)
Definition debug0 : Debug.State :=
  {| Debug.debugEnabled := true; Debug.debugElement := None;
     Debug.console := []; Debug.clock := "12:00:00" |}.

End DiceController.

(** ** Successive rolls *)

Module Rolls.
Import Main.

Section Times.
Context {B : Type} `{Rapier.RigidBody B}.

(** [rollDice()] run [times] times in a row, as by as many clicks. *)
Fixpoint rollTimes (times : nat) (dice : list B) : M Rng (list B) :=
  match times with
  | O => ret dice
  | S times' => dice' <- rollDice dice ;; rollTimes times' dice'
  end.

End Times.

(** The position, in the sequence of [Math.random()], of the [j]-th
    number drawn for die [i] during roll [r], with [n] dice and [k]
    numbers drawn before the first roll. *)
Definition drawIndex (n k r i j : nat) : nat := j + (6 * i + (6 * n * r + k)).

End Rolls.

(** ** The lines of the debug panel *)

Module Panel.

(** Whether [<br>] occurs in [s]. *)
Fixpoint hasBreak (s : string) : bool :=
  match s with
  | EmptyString => false
  | String _ rest => String.prefix "<br>" s || hasBreak rest
  end.

(** The lines the panel shows. *)
Definition lines (innerHTML : string) : list string :=
  Debug.split "<br>" innerHTML.

End Panel.

(** ** src/utils/debug.js: [error] *)

Module DebugError.
Import Debug.

(** The debug module with what was written with [console.error]: the
    text and, when an error object was passed, its message. *)
Record State : Type := {
  debug : Debug.State;
  console_error : list (string * option string)
}.

(** The double quote. *)
Definition quote : string := String (Ascii.ascii_of_nat 34) EmptyString.

(** The opening tag [<span style=...>] of an error line, the style
    being [color:#ff3030] between double quotes. *)
Definition span : string :=
  "<span style=" +:+ quote +:+ "color:#ff3030" +:+ quote +:+ ">".

(** [error(message, err)]; [err] is the message of the error object, if
    one is passed. *)
Definition error (message : string) (err : option string) : State -> State :=
  fun st =>
    let reported := console_error st ++ [("[ERROR] " +:+ message, err)] in
    let d := debug st in
    match debugEnabled d, debugElement d with
    | true, Some innerHTML =>
        let timestamp := clock d in
        let errorMsg :=
          match err with
          | Some err_message => message +:+ ": " +:+ err_message
          | None => message
          end in
        {| debug :=
             {| debugEnabled := debugEnabled d;
                debugElement :=
                  Some (join "<br>"
                          (take 10 (split "<br>"
                             (span +:+ timestamp +:+ ": ERROR: " +:+ errorMsg
                              +:+ "</span><br>" +:+ innerHTML))));
                console := console d;
                clock := clock d |};
           console_error := reported |}
    | _, _ => {| debug := d; console_error := reported |}
    end.

End DebugError.

(** ** src/utils/loader.js: [importLibrary] *)

Module Loader.

(** The network as [import()] sees it: what the n-th request made, for a
    given URL, resolves to (a module, named by a number) if it resolves;
    the URLs requested so far; and the debug module. *)
Record State : Type := {
  responses : nat -> string -> option nat;
  requested : list string;
  debug : Debug.State
}.

Definition log (message : string) : M State unit :=
  fun st =>
    Returns tt {| responses := responses st; requested := requested st;
                  debug := Debug.log message (debug st) |}.

(** [await import(url)]: the module, or the rejection thrown. *)
Definition import (url : string) : M State nat :=
  fun st =>
    let st' := {| responses := responses st;
                  requested := requested st ++ [url];
                  debug := debug st |} in
    match responses st (length (requested st)) url with
    | Some module => Returns module st'
    | None => Throws ("Failed to fetch dynamically imported module: " +:+ url) st'
    end.

(** [importLibrary(url, fallbackUrl, name)] *)
Definition importLibrary (url fallbackUrl name : string) : M State nat :=
  try_catch
    (log ("Loading " +:+ name +:+ " from " +:+ url) ;;;
     import url)
    (fun primaryError =>
       log ("Primary " +:+ name +:+ " load failed, trying fallback: "
            +:+ fallbackUrl) ;;;
       try_catch
         (import fallbackUrl)
         (fun fallbackError =>
            throw ("Failed to load " +:+ name
                   +:+ " from both primary and fallback sources."))).

(** A network on which nothing has been requested and every request is
    answered by [answer]. *)
Definition network (answer : nat -> string -> option nat) : State :=
  {| responses := answer; requested := [];
     debug := {| Debug.debugEnabled := false; Debug.debugElement := None;
                 Debug.console := []; Debug.clock := "12:00:00" |} |}.

End Loader.

(** ** Not-a-number orientations *)

Module NaN.

(** Some component of the quaternion is NaN. *)
Definition someNaN (x y z w : float) : bool :=
  is_nan x || is_nan y || is_nan z || is_nan w.

(** [a] is NaN in the IEEE 754 reading of the number. *)
Definition isNaN (a : float) : Prop := Prim2SF a = S754_nan.

End NaN.

(** * Properties *)

(** ** What getCurrentValue computes *)

Section Resolver.
  Import Three Dice FaceResolver Ties.

Lemma new_normals_run (ns : list vec) (h : store) :
  new_normals ns h = Returns (seq (length h) (length ns)) (h ++ map vec3 ns).
Proof.
  revert h. induction ns as [|[[x y] z] ns IH]; intros h; simpl.
  - unfold ret. by rewrite app_nil_r.
  - unfold bind at 1, new_Vector3. unfold bind at 1. rewrite IH.
    unfold ret. rewrite length_app, Nat.add_1_r. simpl.
    by rewrite <- app_assoc.
Qed.

Lemma checkAlignment_run (st : store) (u n : ref) (index : nat)
    (acc : float * nat) (up v : vec) :
  st !! u = Some (vec3 up) -> st !! n = Some (vec3 v) ->
  checkAlignment u n index acc st
  = Returns (if (fst acc <? dot3 up v)%float then (dot3 up v, index) else acc) st.
Proof.
  destruct up as [[ux uy] uz], v as [[nx ny] nz], acc as [m fi]; simpl.
  intros Hu Hn. unfold checkAlignment, bind, dot. rewrite Hu, Hn.
  by destruct (m <? _)%float.
Qed.

Lemma forEach_scan (up : vec) (u : ref) (st : store) (rest : list vec) :
  st !! u = Some (vec3 up) ->
  forall (index base : nat) (acc : float * nat),
    (forall k n, rest !! k = Some n -> st !! (base + k)%nat = Some (vec3 n)) ->
    forEach_from index (seq base (length rest)) (checkAlignment u) acc st
    = Returns (scan up index rest acc) st.
Proof.
  intros Hu. induction rest as [|n rest IH]; intros index base acc Hn.
  - reflexivity.
  - cbn [length seq forEach_from scan]. unfold bind.
    rewrite (checkAlignment_run st u base index acc up n Hu).
    + apply IH. intros k n' Hk.
      replace (S base + k)%nat with (base + S k)%nat by lia. by apply Hn.
    + rewrite <- (Nat.add_0_r base). by apply Hn.
Qed.

Lemma getCurrentValue_run (d : Die) (h : store) (x y z w : float) :
  h !! mesh_quaternion d = Some (Quaternion x y z w) ->
  getCurrentValue d h
  = Returns (faceNumbers !! faceIndex (x, y, z, w))
            (h ++ vec3 (upVector (x, y, z, w)) :: map vec3 normals).
Proof.
  intros Hq. unfold getCurrentValue.
  unfold bind at 1, new_Vector3 at 1.
  unfold bind at 1, applyQuaternion.
  rewrite (list_lookup_middle h [] _ (length h) eq_refl).
  rewrite (lookup_app_l_Some _ _ _ _ Hq).
  destruct (rotate (0, 1, 0)%float (x, y, z, w)) as [[ux uy] uz] eqn:Hrot.
  rewrite insert_app_r_alt by lia. rewrite Nat.sub_diag. simpl (<[_:=_]> _).
  unfold bind at 1. rewrite new_normals_run.
  unfold bind at 1, forEach.
  rewrite (forEach_scan (ux, uy, uz) (length h) _ normals).
  - unfold ret, faceIndex, upVector. rewrite Hrot. simpl vec3.
    by rewrite <- app_assoc.
  - rewrite lookup_app_l by (rewrite length_app; simpl; lia).
    by apply list_lookup_middle.
  - intros k n Hk. rewrite lookup_app_r by lia.
    replace (length (h ++ [Vector3 ux uy uz]) + k - length (h ++ [Vector3 ux uy uz]))%nat with k by lia.
    by rewrite list_lookup_fmap, Hk.
Qed.

Lemma scan_app (up : vec) (l1 l2 : list vec) :
  forall index acc,
    scan up index (l1 ++ l2) acc
    = scan up (index + length l1) l2 (scan up index l1 acc).
Proof.
  induction l1 as [|n l1 IH]; intros index acc; simpl.
  - by rewrite Nat.add_0_r.
  - rewrite IH. f_equal. lia.
Qed.

Lemma scan_below (up : vec) (a : float) (l : list vec) :
  (forall m, m ∈ l -> (dot3 up m <? a)%float = true) ->
  forall index acc,
    (fst acc <? a)%float = true ->
    (fst (scan up index l acc) <? a)%float = true.
Proof.
  induction l as [|n l IH]; intros Hl index acc Hacc; simpl; [done|].
  apply IH.
  - intros m Hm. apply Hl. by right.
  - destruct (fst acc <? dot3 up n)%float; [|done].
    simpl. apply Hl. by left.
Qed.

Lemma scan_keep (up : vec) (l : list vec) :
  forall index acc,
    (forall m, m ∈ l -> (fst acc <? dot3 up m)%float = false) ->
    scan up index l acc = acc.
Proof.
  induction l as [|n l IH]; intros index acc Hl; simpl; [done|].
  rewrite (Hl n) by by left.
  apply IH. intros m Hm. apply Hl. by right.
Qed.

Lemma scan_first_max (up : vec) (ns : list vec) (i : nat) (n : vec) (acc : float * nat) :
  ns !! i = Some n ->
  (fst acc <? dot3 up n)%float = true ->
  (forall k m, (k < i)%nat -> ns !! k = Some m -> (dot3 up m <? dot3 up n)%float = true) ->
  (forall k m, ns !! k = Some m -> (dot3 up n <? dot3 up m)%float = false) ->
  scan up 0 ns acc = (dot3 up n, i).
Proof.
  intros Hi Hacc Hbefore Hmax.
  rewrite <- (take_drop_middle ns i n Hi).
  rewrite scan_app. simpl.
  assert (Hlen : length (take i ns) = i).
  { apply length_take_le. apply lookup_lt_Some in Hi. lia. }
  rewrite Hlen.
  rewrite (scan_below up (dot3 up n) (take i ns)); [| |done].
  - apply scan_keep. simpl. intros m [k Hk]%list_elem_of_lookup.
    apply (Hmax (S i + k)%nat). by rewrite lookup_drop in Hk.
  - intros m [k Hk]%list_elem_of_lookup.
    destruct (decide (k < i)%nat) as [Hlt|Hge].
    + apply (Hbefore k m Hlt). by rewrite lookup_take_lt in Hk.
    + apply lookup_lt_Some in Hk. lia.
Qed.

Lemma scan_index_bound (up : vec) (ns : list vec) (bound : nat) :
  forall index acc,
    (snd acc < bound)%nat -> (index + length ns <= bound)%nat ->
    (snd (scan up index ns acc) < bound)%nat.
Proof.
  induction ns as [|n ns IH]; intros index acc Hacc Hlen; simpl in *; [done|].
  apply IH; [|lia]. destruct (fst acc <? dot3 up n)%float; simpl; lia.
Qed.

Lemma faceIndex_bound (q : quat) : (faceIndex q < 6)%nat.
Proof. unfold faceIndex. apply scan_index_bound; simpl; lia. Qed.

Lemma faceNumbers_lookup (i : nat) :
  (i < 6)%nat -> exists label, faceNumbers !! i = Some label /\ (1 <= label <= 6)%Z.
Proof.
  intros Hi. do 6 (destruct i as [|i]; [eexists; split; [reflexivity|lia]|]). lia.
Qed.

Lemma alignment_lookup (q : quat) (k : nat) (n : vec) :
  normals !! k = Some n -> alignment q k = dot3 (upVector q) n.
Proof. intros Hk. unfold alignment. by rewrite Hk. Qed.

Lemma faceIndex_first_max (q : quat) (i : nat) :
  (i < length normals)%nat ->
  attainsMax q i = true ->
  aboveEarlier q i = true ->
  (-1 <? alignment q i)%float = true ->
  faceIndex q = i.
Proof.
  intros Hi Hmax Hearlier Hinit.
  destruct (lookup_lt_is_Some_2 normals i Hi) as [n Hn].
  unfold attainsMax, attainsMaxBy in Hmax. unfold aboveEarlier in Hearlier.
  rewrite forallb_forall in Hmax. rewrite forallb_forall in Hearlier.
  rewrite (alignment_lookup q i n Hn) in *.
  unfold faceIndex.
  rewrite (scan_first_max (upVector q) normals i n); [done|done|done| |].
  - intros k m Hk Hm. rewrite <- (alignment_lookup q k m Hm).
    apply Hearlier. apply in_seq. lia.
  - intros k m Hm. rewrite <- (alignment_lookup q k m Hm).
    apply negb_true_iff. apply Hmax. apply in_seq.
    apply lookup_lt_Some in Hm. lia.
Qed.

(** C1, evaluated on the code.  Each quaternion of [faceUp] has unit
    length and turns the normal of its face onto world-up, and the
    specification's resolver returns that face's label there;
    [getCurrentValue] returns it for top and bottom only, and the label of
    the opposite face for right, left, front and back: it rotates world-up
    by the orientation where the inverse was needed.  The same happens
    without any rounding at the third-of-a-turn orientation
    (1/2, 1/2, 1/2, 1/2), which puts the right face exactly up and is
    resolved to the front face. *)
Theorem getCurrentValue_face_up_quaternions :
  forallb unitLength faceUp = true
  /\ forallb (fun f => (1 <=? worldAlignment (fst f) (snd f))%float)
             (zip faceUp normals) = true
  /\ map (fun q => resolveFace q faceAssignment) faceUp = map Some faceNumbers
  /\ map valueAt faceUp = [Some 6; Some 1; Some 2; Some 5; Some 4; Some 3]%Z
  /\ unitLength (0.5, 0.5, 0.5, 0.5)%float = true
  /\ rotate (1, 0, 0)%float (0.5, 0.5, 0.5, 0.5)%float = (0, 1, 0)%float
  /\ resolveFace (0.5, 0.5, 0.5, 0.5)%float faceAssignment = Some 1%Z
  /\ valueAt (0.5, 0.5, 0.5, 0.5)%float = Some 3%Z.
Proof. repeat split; by vm_compute. Qed.

(** C3 as the specification states it fails: at the unit orientation
    [edgeOn] the left face (label 6) and the top face (label 2) tie for
    the maximum of the alignments the loop compares, the lowest tied label
    is 2, and [getCurrentValue] returns 6.  Read with the specification's
    world-space alignments it fails there too: right (1) and top (2) tie. *)
Lemma lowest_tied_label_counterexample :
  ~ (forall q : quat,
       unitLength q = true ->
       (2 <= length (tiedLabels q))%nat -> valueAt q = lowest (tiedLabels q))
  /\ ~ (forall q : quat,
          unitLength q = true ->
          (2 <= length (worldTiedLabels q))%nat ->
          valueAt q = lowest (worldTiedLabels q)).
Proof.
  assert (Hunit : unitLength edgeOn = true) by (by vm_compute).
  split; intros Hclaim; specialize (Hclaim edgeOn Hunit).
  - assert (Htied : (2 <= length (tiedLabels edgeOn))%nat) by (vm_compute; lia).
    specialize (Hclaim Htied). vm_compute in Hclaim. discriminate Hclaim.
  - assert (Htied : (2 <= length (worldTiedLabels edgeOn))%nat) by (vm_compute; lia).
    specialize (Hclaim Htied). vm_compute in Hclaim. discriminate Hclaim.
Qed.

(** C3, amended.  For every orientation, when face [i] of the table
    attains the maximum of the alignments the loop compares (no face
    exceeds it, so any other face reaching the maximum is tied with it),
    every face before it in the table is strictly below it, and the
    maximum exceeds the loop's initial value -1, [getCurrentValue] returns
    the label of face [i]: among tied faces the first in the order right,
    left, top, bottom, front, back wins, whatever its label. *)
Theorem getCurrentValue_first_of_tied (d : Die) (h : store)
    (x y z w : float) (i : nat) :
  h !! mesh_quaternion d = Some (Quaternion x y z w) ->
  (i < length normals)%nat ->
  attainsMax (x, y, z, w) i = true ->
  aboveEarlier (x, y, z, w) i = true ->
  (-1 <? alignment (x, y, z, w) i)%float = true ->
  exists h', getCurrentValue d h = Returns (faceNumbers !! i) h'.
Proof.
  intros Hq Hi Hmax Hearlier Hinit.
  rewrite (getCurrentValue_run d h x y z w Hq).
  rewrite (faceIndex_first_max _ i Hi Hmax Hearlier Hinit). by eexists.
Qed.

Lemma getCurrentValue_first_of_tied_witness :
  exists h',
    getCurrentValue {| mesh_quaternion := 0 |}
      [Quaternion 0 0 0.3826834323650898 0.9238795325112866]
    = Returns (faceNumbers !! 1%nat) h'.
Proof.
  apply (getCurrentValue_first_of_tied {| mesh_quaternion := 0 |}
           [Quaternion 0 0 0.3826834323650898 0.9238795325112866]
           0 0 0.3826834323650898 0.9238795325112866 1).
  - reflexivity.
  - vm_compute. lia.
  - vm_compute. reflexivity.
  - vm_compute. reflexivity.
  - vm_compute. reflexivity.
Defined.

(** C4.  Whatever numbers the die's quaternion holds (unit or not),
    [getCurrentValue] returns, and what it returns is one label of
    [faceNumbers], an integer from 1 to 6. *)
Theorem getCurrentValue_total (d : Die) (h : store) (x y z w : float) :
  h !! mesh_quaternion d = Some (Quaternion x y z w) ->
  exists label h',
    getCurrentValue d h = Returns (Some label) h' /\ (1 <= label <= 6)%Z.
Proof.
  intros Hq. rewrite (getCurrentValue_run d h x y z w Hq).
  destruct (faceNumbers_lookup _ (faceIndex_bound (x, y, z, w)))
    as (label & Hl & Hrange).
  exists label. eexists. rewrite Hl. by split.
Qed.

Lemma getCurrentValue_total_witness :
  exists label h',
    getCurrentValue {| mesh_quaternion := 0 |} [Quaternion 0 0 0 1]
    = Returns (Some label) h' /\ (1 <= label <= 6)%Z.
Proof. apply (getCurrentValue_total _ _ 0 0 0 1). reflexivity. Defined.

Ltac table_index n i H :=
  lazymatch n with
  | O => vm_compute in H; discriminate H
  | S ?k => let i' := fresh "i" in
            destruct i as [|i']; [vm_compute in H | table_index k i' H]
  end.

(** C5.  The table has six normals and six labels; every normal is one
    of the six axis-aligned directions, each of +X, -X, +Y, -Y, +Z, -Z
    carries exactly one label (1, 6, 2, 5, 3, 4 in that order), and the
    labels of two faces with opposite normals sum to 7. *)
Theorem faceAssignment_standard :
  length normals = 6%nat /\ length faceNumbers = 6%nat
  /\ forallb (fun n => existsb (vec_eqb n) axisDirections) normals = true
  /\ (forall v, v ∈ axisDirections -> exists label, labelsOf v = [label])
  /\ map labelsOf axisDirections = [[1]; [6]; [2]; [5]; [3]; [4]]%Z
  /\ (forall i j ni li nj lj,
        faceAssignment !! i = Some (ni, li) ->
        faceAssignment !! j = Some (nj, lj) ->
        opposite ni nj = true ->
        (li + lj = 7)%Z).
Proof.
  split; [reflexivity|]. split; [reflexivity|]. split; [by vm_compute|].
  split.
  - intros v Hv. apply list_elem_of_In in Hv. vm_compute in Hv.
    repeat (destruct Hv as [<-|Hv]; [eexists; by vm_compute|]). destruct Hv.
  - split; [by vm_compute|].
    intros i j ni li nj lj Hi Hj Hopp.
    table_index 6%nat i Hi; table_index 6%nat j Hj;
      injection Hi as <- <-; injection Hj as <- <-;
      vm_compute in Hopp; first [discriminate Hopp | reflexivity].
Qed.

(** C7.  The half turn about X, quaternion (1, 0, 0, 0), sends the up
    vector to (0, -1, 0), the normal of the bottom face, whose label is 5;
    [getCurrentValue] returns 5. *)
Theorem getCurrentValue_half_turn_about_X (d : Die) (h : store) :
  h !! mesh_quaternion d = Some (Quaternion 1 0 0 0) ->
  upVector (1, 0, 0, 0)%float = (0, -1, 0)%float
  /\ labelsOf (0, -1, 0)%float = [5%Z]
  /\ exists h', getCurrentValue d h = Returns (Some 5%Z) h'.
Proof.
  intros Hq. split; [by vm_compute|]. split; [by vm_compute|].
  rewrite (getCurrentValue_run d h _ _ _ _ Hq). eexists.
  f_equal.
Qed.

Lemma getCurrentValue_half_turn_about_X_witness :
  upVector (1, 0, 0, 0)%float = (0, -1, 0)%float
  /\ labelsOf (0, -1, 0)%float = [5%Z]
  /\ exists h',
       getCurrentValue {| mesh_quaternion := 0 |} [Quaternion 1 0 0 0]
       = Returns (Some 5%Z) h'.
Proof.
  apply (getCurrentValue_half_turn_about_X
           {| mesh_quaternion := 0 |} [Quaternion 1 0 0 0]).
  reflexivity.
Defined.

(** C8.  A call returns a label [v] and leaves the store as it was, with
    the vectors it created for itself appended: every object that existed
    before the call, the die's quaternion among them, is unchanged.  A
    second call returns the same [v], and so does a call on any die in any
    store whose quaternion holds the same four numbers. *)
Theorem getCurrentValue_deterministic (d : Die) (h : store) (x y z w : float) :
  h !! mesh_quaternion d = Some (Quaternion x y z w) ->
  exists v locals locals',
    getCurrentValue d h = Returns v (h ++ locals)
    /\ (forall r o, h !! r = Some o -> (h ++ locals) !! r = Some o)
    /\ getCurrentValue d (h ++ locals) = Returns v (h ++ locals ++ locals')
    /\ (forall d2 h2, h2 !! mesh_quaternion d2 = Some (Quaternion x y z w) ->
          exists h2', getCurrentValue d2 h2 = Returns v h2').
Proof.
  intros Hq.
  exists (faceNumbers !! faceIndex (x, y, z, w)).
  exists (vec3 (upVector (x, y, z, w)) :: map vec3 normals).
  exists (vec3 (upVector (x, y, z, w)) :: map vec3 normals).
  split; [by apply getCurrentValue_run|].
  split; [intros r o Hr; by apply lookup_app_l_Some|].
  split.
  - rewrite (getCurrentValue_run d _ x y z w) by by apply lookup_app_l_Some.
    by rewrite <- app_assoc.
  - intros d2 h2 Hq2. eexists. by apply getCurrentValue_run.
Qed.

Lemma getCurrentValue_deterministic_witness :
  exists v locals locals',
    getCurrentValue {| mesh_quaternion := 0 |} [Quaternion 0 0 0 1]
    = Returns v ([Quaternion 0 0 0 1] ++ locals)
    /\ (forall r o, [Quaternion 0 0 0 1] !! r = Some o ->
          ([Quaternion 0 0 0 1] ++ locals) !! r = Some o)
    /\ getCurrentValue {| mesh_quaternion := 0 |} ([Quaternion 0 0 0 1] ++ locals)
       = Returns v ([Quaternion 0 0 0 1] ++ locals ++ locals')
    /\ (forall d2 h2, h2 !! mesh_quaternion d2 = Some (Quaternion 0 0 0 1) ->
          exists h2', getCurrentValue d2 h2 = Returns v h2').
Proof.
  apply (getCurrentValue_deterministic
           {| mesh_quaternion := 0 |} [Quaternion 0 0 0 1] 0 0 0 1).
  reflexivity.
Defined.

End Resolver.

(** ** Rest detection *)

Section Rest.
Import Dice FaceResolver.

(** What [isAtRest] reads as a speed is [undefined]: a Rapier vector has
    no property [length]. *)
Lemma Vector3_get_length (v : Rapier.Vector3) :
  Rapier.Vector3_get v "length" = JS.Undefined.
Proof. reflexivity. Qed.

Lemma isAtRest_false (B : Type) `(Rapier.RigidBody B) (body : B) :
  isAtRest body = false.
Proof.
  unfold isAtRest. by rewrite !Vector3_get_length.
Qed.

(** C2.  [isAtRest] reads the property [length] of the vectors that
    [linvel()] and [angvel()] return.  A Rapier vector has the
    properties x, y and z only, so the reading is [undefined], the
    comparison [undefined < 0.1] is false, and [isAtRest] is false on
    every rigid body: also on a body that does not move and on one
    whose speeds are about 0.05, where the specification's [isSettled],
    true exactly when both speeds are below their thresholds, is true
    at the thresholds 0.1 and 0.1, as the comment of [isAtRest] (true if
    the dice has stopped moving) requires. *)
Theorem isAtRest_false_on_every_body :
  (forall (B : Type) `(Rapier.RigidBody B) (body : B), isAtRest body = false)
  /\ (forall linearSpeed angularSpeed linearThreshold angularThreshold : float,
        isSettled linearSpeed angularSpeed linearThreshold angularThreshold = true
        <-> (linearSpeed <? linearThreshold)%float = true
            /\ (angularSpeed <? angularThreshold)%float = true)
  /\ isSettled 0.05 0.05 0.1 0.1 = true
  /\ isSettled 0.2 0.05 0.1 0.1 = false
  /\ isSettled 0.05 0.2 0.1 0.1 = false
  /\ isSettled 0 0 0.1 0.1 = true
  /\ (let body := Rapier.still in
      isSettled (speed (Rapier.linvel body)) (speed (Rapier.angvel body)) 0.1 0.1
      = true
      /\ isAtRest body = false)
  /\ (let body := Rapier.at_velocity (Rapier.Build_Vector3 0.03 0.04 0)
                                     (Rapier.Build_Vector3 0 0.05 0) in
      isSettled (speed (Rapier.linvel body)) (speed (Rapier.angvel body)) 0.1 0.1
      = true
      /\ isAtRest body = false).
Proof.
  split; [intros B HB body; apply isAtRest_false|]. split.
  - intros l a tl ta. unfold isSettled. apply andb_true_iff.
  - repeat split; by vm_compute.
Qed.

End Rest.

(** ** Roll initiation *)

Section Rolling.
Import Main RollTrace.

Lemma rollDie_run (die : Rapier.Recorded) (index : nat)
    (draws : nat -> float) (k : nat) :
  rollDie die index {| draws := draws; drawn := k |}
  = Returns (rolled draws k index die) {| draws := draws; drawn := 6 + k |}.
Proof.
  unfold rollDie, bind, Math_random, ret, rolled, rollCalls. simpl.
  unfold Rapier.record; simpl. repeat rewrite <- app_assoc. reflexivity.
Qed.

Lemma rollDice_from_run (draws : nat -> float) (dice : list Rapier.Recorded) :
  forall (index k : nat) (done : list Rapier.Recorded),
    forEach_from index dice
      (fun die index rolled => die' <- rollDie die index ;; ret (rolled ++ [die']))
      done {| draws := draws; drawn := k |}
    = Returns (done ++ rolledFrom draws k index dice)
              {| draws := draws; drawn := 6 * length dice + k |}.
Proof.
  induction dice as [|die dice IH]; intros index k done; simpl.
  - unfold ret. by rewrite app_nil_r.
  - unfold bind at 1. unfold bind at 1. rewrite rollDie_run. unfold ret at 1.
    rewrite IH. rewrite <- app_assoc. simpl. do 2 f_equal. lia.
Qed.

Lemma rolledFrom_lookup (draws : nat -> float) (dice : list Rapier.Recorded) :
  forall (k index i : nat) (die : Rapier.Recorded),
    dice !! i = Some die ->
    rolledFrom draws k index dice !! i
    = Some (rolled draws (6 * i + k) (index + i) die).
Proof.
  induction dice as [|d dice IH]; intros k index i die Hi; [done|].
  destruct i as [|i]; simpl in *.
  - injection Hi as ->. by rewrite Nat.add_0_r.
  - rewrite (IH _ _ _ _ Hi). do 2 f_equal; lia.
Qed.

(** C6.  Whatever [Math.random()] yields and however many dice there
    are, a roll returns, having drawn six random numbers per die, and the
    body of the die at position [i] has received exactly the five calls
    of [rollCalls], in order: the translation to (10 + 0.5 i, 8 + 2 i,
    10 + 0.3 i), the linear and the angular velocity set to (0, 0, 0), one
    impulse and one torque impulse, whose components are computed from
    that die's six draws.  For the dice of [DICE_COLORS] the height
    8 + 2 i lies above the top of the floor collider. *)
Theorem rollDice_sequence (draws : nat -> float) (k : nat)
    (dice : list Rapier.Recorded) (i : nat) (die : Rapier.Recorded) :
  dice !! i = Some die ->
  exists dice',
    rollDice dice {| draws := draws; drawn := k |}
    = Returns dice' {| draws := draws; drawn := 6 * length dice + k |}
    /\ exists die',
         dice' !! i = Some die'
         /\ Rapier.calls die'
            = Rapier.calls die ++ rollCalls i (fun j => draws (j + (6 * i + k))%nat)
         /\ ((i < length Config.DICE_COLORS)%nat ->
             (Rapier.y Config.PHYSICS_floorSize <? 8 + Number i * 2)%float = true).
Proof.
  intros Hi. eexists. split.
  - unfold rollDice, forEach. rewrite rollDice_from_run. reflexivity.
  - eexists. split; [|split].
    + simpl. by apply rolledFrom_lookup.
    + reflexivity.
    + intros Hlt. simpl in Hlt.
      destruct i as [|[|i]]; [by vm_compute|by vm_compute|lia].
Qed.

Lemma rollDice_sequence_witness :
  exists dice',
    rollDice [Rapier.still; Rapier.still]
             {| draws := fun _ => 0.5%float; drawn := 0 |}
    = Returns dice' {| draws := fun _ => 0.5%float; drawn := 6 * 2 + 0 |}
    /\ exists die',
         dice' !! 1%nat = Some die'
         /\ Rapier.calls die' = [] ++ rollCalls 1 (fun j => 0.5%float)
         /\ ((1 < length Config.DICE_COLORS)%nat ->
             (Rapier.y Config.PHYSICS_floorSize <? 8 + Number 1 * 2)%float = true).
Proof.
  apply (rollDice_sequence (fun _ => 0.5%float) 0
           [Rapier.still; Rapier.still] 1 (Rapier.still)).
  reflexivity.
Defined.

End Rolling.

(** ** The dice-face textures *)

Section FaceTextures.
Import Textures Pips.
#[local] Open Scope Z_scope.

Ltac switch_cases :=
  repeat match goal with
         | |- context [match ?v with _ => _ end] => is_var v; destruct v
         end.

Lemma createFallbackTexture_returns (value color : Z) (st : State) :
  exists texture st', createFallbackTexture value color st = Returns texture st'.
Proof.
  unfold createFallbackTexture, bind, getContext.
  destruct (context2d st (canvases st)); simpl; unfold new_Texture; eauto.
Qed.

Lemma generateDiceFaceTexture_returns (value color : Z) (st : State) :
  exists texture st', generateDiceFaceTexture value color st = Returns texture st'.
Proof.
  unfold generateDiceFaceTexture, try_catch, bind at 1, getContext.
  destruct (context2d st (canvases st)); simpl.
  - unfold bind, ret, log, new_Texture. switch_cases; eauto.
  - unfold throw, bind, log. apply createFallbackTexture_returns.
Qed.

Lemma generateDiceFaceTexture_default (value color : Z) (st : State) :
  (value < 1 \/ 6 < value) ->
  context2d st (canvases st) = true ->
  generateDiceFaceTexture value color st
  = Returns (length (textures st))
      {| diceFaceCache := diceFaceCache st;
         textures := textures st ++ [CanvasTexture (singlePipCanvas color)];
         canvases := S (canvases st);
         context2d := context2d st;
         debug := Debug.log (invalidValueWarning value) (debug st) |}.
Proof.
  intros Hv Hctx.
  unfold generateDiceFaceTexture, try_catch, bind at 1, getContext.
  rewrite Hctx. simpl.
  unfold bind, ret, log, new_Texture.
  destruct value as [|p|p]; [reflexivity| |reflexivity].
  destruct p as [[p|p|]|[p|p|]|]; try lia; try reflexivity;
    destruct p; try lia; reflexivity.
Qed.

Lemma generateDiceFaceTexture_one (color : Z) (st : State) :
  context2d st (canvases st) = true ->
  generateDiceFaceTexture 1 color st
  = Returns (length (textures st))
      {| diceFaceCache := diceFaceCache st;
         textures := textures st ++ [CanvasTexture (singlePipCanvas color)];
         canvases := S (canvases st);
         context2d := context2d st;
         debug := debug st |}.
Proof.
  intros Hctx.
  unfold generateDiceFaceTexture, try_catch, bind at 1, getContext.
  rewrite Hctx. reflexivity.
Qed.

(** C9.  In every state, for every value and colour, a call returns a
    texture, which the cache now holds under the pair's key; a second call
    with the same pair returns the same texture and leaves the state as
    the first call left it: no canvas and no texture is created. *)
Theorem createDiceFaceTexture_memoized (value color : Z) (st : State) :
  exists texture st1,
    createDiceFaceTexture value color st = Returns texture st1
    /\ diceFaceCache st1 !! ("face_" +:+ pretty value +:+ "_" +:+ pretty color)
       = Some texture
    /\ createDiceFaceTexture value color st1 = Returns texture st1.
Proof.
  unfold createDiceFaceTexture, bind at 1, cache_get at 1.
  destruct (diceFaceCache st !! _) as [texture|] eqn:Hcache.
  - exists texture, st. split; [reflexivity|]. split; [exact Hcache|].
    unfold bind, cache_get. by rewrite Hcache.
  - destruct (generateDiceFaceTexture_returns value color st) as (texture & st' & Hgen).
    unfold bind at 1. rewrite Hgen. unfold bind at 1, cache_set at 1, ret at 1.
    eexists. eexists. split; [reflexivity|]. simpl.
    split; [by rewrite lookup_insert_eq|].
    unfold bind, cache_get. simpl. by rewrite lookup_insert_eq.
Qed.

(** C10 as stated fails: with debug mode off, as config.js ships it,
    generating the face for the value 7 leaves the console empty; no
    warning is logged. *)
Lemma invalid_value_warning_counterexample :
  ~ (forall (value color : Z) (st : State),
       (value < 1 \/ 6 < value) ->
       context2d st (canvases st) = true ->
       exists texture st',
         generateDiceFaceTexture value color st = Returns texture st'
         /\ ("[DEBUG] " +:+ invalidValueWarning value) ∈ Debug.console (debug st')).
Proof.
  intros Hclaim.
  destruct (Hclaim 7 0xff00ff (fresh false)) as (texture & st' & Hgen & Hlogged);
    [lia|reflexivity|].
  rewrite generateDiceFaceTexture_default in Hgen by (lia || reflexivity).
  injection Hgen as _ <-. simpl in Hlogged. by apply elem_of_nil in Hlogged.
Qed.

(** C10, amended.  For every value outside 1..6, generation returns a
    texture in every state.  When the canvas gives a 2D context, the
    texture is the one generated for face 1, the single centred pip, and
    the warning is handed to [log]: it is appended to the console when
    debug mode is on, and the debug state is untouched when it is off. *)
Theorem generateDiceFaceTexture_invalid_value (value color : Z) (st : State) :
  (value < 1 \/ 6 < value) ->
  (exists texture st', generateDiceFaceTexture value color st = Returns texture st')
  /\ (context2d st (canvases st) = true ->
      exists texture st' st1,
        generateDiceFaceTexture value color st = Returns texture st'
        /\ generateDiceFaceTexture 1 color st = Returns texture st1
        /\ textures st' = textures st ++ [CanvasTexture (singlePipCanvas color)]
        /\ textures st1 = textures st'
        /\ debug st' = Debug.log (invalidValueWarning value) (debug st)
        /\ (Debug.debugEnabled (debug st) = true ->
            Debug.console (debug st')
            = Debug.console (debug st) ++ ["[DEBUG] " +:+ invalidValueWarning value])
        /\ (Debug.debugEnabled (debug st) = false -> debug st' = debug st)).
Proof.
  intros Hv. split; [apply generateDiceFaceTexture_returns|].
  intros Hctx. do 3 eexists.
  split; [by apply generateDiceFaceTexture_default|].
  split; [by apply generateDiceFaceTexture_one|].
  simpl. repeat split.
  - intros Hon. unfold Debug.log. rewrite Hon. simpl.
    by destruct (Debug.debugElement (debug st)).
  - intros Hoff. unfold Debug.log. by rewrite Hoff.
Qed.

Lemma generateDiceFaceTexture_invalid_value_witness :
  (exists texture st',
      generateDiceFaceTexture 7 0xff00ff (fresh true) = Returns texture st')
  /\ (context2d (fresh true) (canvases (fresh true)) = true ->
      exists texture st' st1,
        generateDiceFaceTexture 7 0xff00ff (fresh true) = Returns texture st'
        /\ generateDiceFaceTexture 1 0xff00ff (fresh true) = Returns texture st1
        /\ textures st'
           = textures (fresh true) ++ [CanvasTexture (singlePipCanvas 0xff00ff)]
        /\ textures st1 = textures st'
        /\ debug st' = Debug.log (invalidValueWarning 7) (debug (fresh true))
        /\ (Debug.debugEnabled (debug (fresh true)) = true ->
            Debug.console (debug st')
            = Debug.console (debug (fresh true))
              ++ ["[DEBUG] " +:+ invalidValueWarning 7])
        /\ (Debug.debugEnabled (debug (fresh true)) = false ->
            debug st' = debug (fresh true))).
Proof.
  apply (generateDiceFaceTexture_invalid_value 7 0xff00ff (fresh true)).
  right. reflexivity.
Defined.

End FaceTextures.

(** ** More on the dice-face textures *)

Section TextureCache.
Import Textures Pips FaceCanvas.
#[local] Open Scope Z_scope.

Ltac switch_value :=
  repeat match goal with
         | |- context [match ?v with _ => _ end] => is_var v; destruct v
         end.

Lemma occurs_pretty_N_go (x : N) :
  forall s, occurs "_"%char (pretty_N_go x s) = occurs "_"%char s.
Proof.
  induction (N.lt_wf_0 x) as [x _ IH]; intros s.
  assert (x = 0 \/ 0 < x)%N as [->|Hx] by lia.
  - by rewrite pretty_N_go_0.
  - rewrite pretty_N_go_step by done. rewrite IH by by apply N.div_lt.
    assert (Hd : (x `mod` 10 < 10)%N) by (apply N.mod_lt; lia).
    set (d := (x `mod` 10)%N) in *.
    assert (Hcases : (d = 0 \/ d = 1 \/ d = 2 \/ d = 3 \/ d = 4 \/ d = 5
                      \/ d = 6 \/ d = 7 \/ d = 8 \/ d = 9)%N) by lia.
    clearbody d.
    repeat destruct Hcases as [->|Hcases]; try reflexivity.
    by subst d.
Qed.

Lemma occurs_pretty_N (n : N) : occurs "_"%char (pretty n) = false.
Proof.
  unfold pretty, pretty_N. destruct (decide (n = 0%N)); [done|].
  by rewrite occurs_pretty_N_go.
Qed.

Lemma occurs_pretty_Z (z : Z) : occurs "_"%char (pretty z) = false.
Proof.
  destruct z as [|p|p]; [done| |].
  - apply (occurs_pretty_N (N.pos p)).
  - change (pretty (Z.neg p)) with (String "-"%char (pretty (N.pos p))).
    simpl. apply occurs_pretty_N.
Qed.

Lemma append_separator_inj (a b x y : string) :
  occurs "_"%char a = false -> occurs "_"%char b = false ->
  a +:+ String "_"%char x = b +:+ String "_"%char y -> a = b /\ x = y.
Proof.
  revert b. induction a as [|c a IH]; intros [|d b] Ha Hb Heq; simpl in *.
  - by injection Heq.
  - injection Heq as <- _. discriminate Hb.
  - injection Heq as -> _. discriminate Ha.
  - injection Heq as -> Heq.
    apply orb_false_iff in Ha as [_ Ha]. apply orb_false_iff in Hb as [_ Hb].
    destruct (IH b Ha Hb Heq) as [-> ->]. done.
Qed.

Lemma cacheKey_inj (v1 c1 v2 c2 : Z) :
  cacheKey v1 c1 = cacheKey v2 c2 -> v1 = v2 /\ c1 = c2.
Proof.
  unfold cacheKey. intros Heq. simpl in Heq. injection Heq as Heq.
  apply append_separator_inj in Heq as [Hv Hc]; try apply occurs_pretty_Z.
  split; by apply (inj pretty).
Qed.

(** What a generation does to the state, whatever path it takes: one
    texture is appended and returned, one or two canvases are created,
    the cache and the context oracle are left alone. *)
Lemma generateDiceFaceTexture_allocates (value color : Z) (st : State) :
  exists texture st',
    generateDiceFaceTexture value color st = Returns (length (textures st)) st'
    /\ textures st' = textures st ++ [texture]
    /\ diceFaceCache st' = diceFaceCache st
    /\ context2d st' = context2d st
    /\ (canvases st < canvases st' <= canvases st + 2)%nat.
Proof.
  unfold generateDiceFaceTexture, try_catch, bind at 1, getContext.
  destruct (context2d st (canvases st)) eqn:Hctx; simpl.
  - unfold bind, ret, log, new_Texture.
    switch_value; simpl; eexists; eexists; (split; [reflexivity|]); simpl;
      (repeat split; try reflexivity; lia).
  - unfold throw, bind at 1, log. unfold createFallbackTexture, bind, getContext.
    simpl. destruct (context2d st (S (canvases st))); simpl; unfold new_Texture;
      simpl; eexists; eexists; (split; [reflexivity|]); simpl;
      (repeat split; try reflexivity; lia).
Qed.

Lemma createDiceFaceTexture_cached (value color : Z) (st : State) (texture : nat) :
  diceFaceCache st !! cacheKey value color = Some texture ->
  createDiceFaceTexture value color st = Returns texture st.
Proof.
  intros Hhit. unfold createDiceFaceTexture, bind, cache_get.
  fold (cacheKey value color). by rewrite Hhit.
Qed.

Lemma createDiceFaceTexture_missing (value color : Z) (st : State) :
  diceFaceCache st !! cacheKey value color = None ->
  exists texture st',
    createDiceFaceTexture value color st = Returns (length (textures st)) st'
    /\ textures st' = textures st ++ [texture]
    /\ diceFaceCache st'
       = <[cacheKey value color := length (textures st)]> (diceFaceCache st).
Proof.
  intros Hmiss.
  destruct (generateDiceFaceTexture_allocates value color st)
    as (texture & st1 & Hgen & Htex & Hcache & _).
  unfold createDiceFaceTexture, bind at 1, cache_get at 1.
  fold (cacheKey value color). rewrite Hmiss.
  unfold bind at 1. rewrite Hgen. unfold bind, cache_set, ret.
  eexists. eexists. split; [reflexivity|]. simpl. by rewrite Hcache.
Qed.

Lemma grows_refl (st : State) : grows st st.
Proof. by split. Qed.

Lemma grows_trans (st1 st2 st3 : State) :
  grows st1 st2 -> grows st2 st3 -> grows st1 st3.
Proof. intros [H1 H2] [H3 H4]. split; eauto. Qed.

Lemma createDiceFaceTexture_run (value color : Z) (st : State) :
  exists texture st',
    createDiceFaceTexture value color st = Returns texture st'
    /\ diceFaceCache st' !! cacheKey value color = Some texture
    /\ grows st st'
    /\ (length (textures st') <= S (length (textures st)))%nat
    /\ (cacheValid st -> cacheValid st' /\ (cacheInjective st -> cacheInjective st')).
Proof.
  destruct (diceFaceCache st !! cacheKey value color) as [texture|] eqn:Hkey.
  - exists texture, st. split; [by apply createDiceFaceTexture_cached|].
    split; [done|]. split; [apply grows_refl|]. split; [lia|]. done.
  - destruct (createDiceFaceTexture_missing value color st Hkey)
      as (tex & st' & Hrun & Htex & Hcache).
    exists (length (textures st)), st'. split; [done|].
    unfold grows, cacheValid, cacheInjective. rewrite Htex, Hcache.
    split; [by rewrite lookup_insert_eq|]. split; [split|split].
    + intros key t Hk. rewrite lookup_insert_ne; [done|]. congruence.
    + intros i t Hi. by apply lookup_app_l_Some.
    + rewrite length_app. simpl. lia.
    + intros Hvalid. split.
      * intros key t. rewrite length_app. simpl.
        destruct (decide (key = cacheKey value color)) as [->|Hne].
        -- rewrite lookup_insert_eq. intros [= <-]. lia.
        -- rewrite lookup_insert_ne by done. intros Hk%Hvalid. lia.
      * intros Hinj k1 k2 t'.
        destruct (decide (k1 = cacheKey value color)) as [->|H1],
                 (decide (k2 = cacheKey value color)) as [->|H2];
          rewrite ?lookup_insert_eq, ?lookup_insert_ne by done; try done.
        -- intros [= <-] Hk2%Hvalid. lia.
        -- intros Hk1%Hvalid [= <-]. lia.
        -- apply Hinj.
Qed.

(** X1.  Whatever the cache holds, as long as every cached reference is
    an existing texture, [createDiceFaceTexture] returns a texture, keeps
    that invariant, leaves the texture cached under the key of the pair,
    replaces or drops no earlier cache entry and no earlier texture, and
    allocates at most one texture. *)
Theorem createDiceFaceTexture_keeps_cache (value color : Z) (st : State) :
  cacheValid st ->
  exists texture st',
    createDiceFaceTexture value color st = Returns texture st'
    /\ cacheValid st'
    /\ diceFaceCache st' !! cacheKey value color = Some texture
    /\ grows st st'
    /\ (length (textures st') <= S (length (textures st)))%nat.
Proof.
  intros Hvalid.
  destruct (createDiceFaceTexture_run value color st)
    as (texture & st' & Hrun & Hkey & Hgrows & Hlen & Hinv).
  exists texture, st'. destruct (Hinv Hvalid). done.
Qed.

Lemma createDiceFaceTexture_keeps_cache_witness :
  exists texture st',
    createDiceFaceTexture 3 0xff00ff (fresh false) = Returns texture st'
    /\ cacheValid st'
    /\ diceFaceCache st' !! cacheKey 3 0xff00ff = Some texture
    /\ grows (fresh false) st'
    /\ (length (textures st') <= S (length (textures (fresh false))))%nat.
Proof.
  apply (createDiceFaceTexture_keeps_cache 3 0xff00ff (fresh false)).
  intros key texture Hkey. simpl in Hkey. rewrite lookup_empty in Hkey.
  discriminate Hkey.
Defined.

(** X2.  The cache key separates pairs: two calls of
    [createDiceFaceTexture] on pairs that differ in the value or in the
    colour return two different textures, from any state whose cache is
    valid and holds no texture under two keys; both invariants hold
    again afterwards. *)
Theorem createDiceFaceTexture_distinct_pairs (v1 c1 v2 c2 : Z) (st : State) :
  cacheValid st -> cacheInjective st ->
  (v1 <> v2 \/ c1 <> c2) ->
  exists t1 st1 t2 st2,
    createDiceFaceTexture v1 c1 st = Returns t1 st1
    /\ createDiceFaceTexture v2 c2 st1 = Returns t2 st2
    /\ t1 <> t2
    /\ cacheValid st2 /\ cacheInjective st2.
Proof.
  intros Hvalid Hinj Hne.
  destruct (createDiceFaceTexture_run v1 c1 st)
    as (t1 & st1 & Hrun1 & Hk1 & _ & _ & Hinv1).
  destruct (Hinv1 Hvalid) as [Hv1 Hi1]. specialize (Hi1 Hinj).
  destruct (createDiceFaceTexture_run v2 c2 st1)
    as (t2 & st2 & Hrun2 & Hk2 & [Hmono _] & _ & Hinv2).
  destruct (Hinv2 Hv1) as [Hv2 Hi2]. specialize (Hi2 Hi1).
  exists t1, st1, t2, st2. repeat split; try done.
  intros <-. apply Hmono in Hk1.
  destruct (cacheKey_inj _ _ _ _ (Hi2 _ _ _ Hk1 Hk2)) as [-> ->].
  by destruct Hne.
Qed.

Lemma fresh_cacheValid (debugEnabled : bool) : cacheValid (fresh debugEnabled).
Proof. intros key texture Hkey. simpl in Hkey. by rewrite lookup_empty in Hkey. Qed.

Lemma fresh_cacheInjective (debugEnabled : bool) : cacheInjective (fresh debugEnabled).
Proof. intros k1 k2 texture Hkey. simpl in Hkey. by rewrite lookup_empty in Hkey. Qed.

Lemma createDiceFaceTexture_distinct_pairs_witness :
  exists t1 st1 t2 st2,
    createDiceFaceTexture 1 0xff00ff (fresh false) = Returns t1 st1
    /\ createDiceFaceTexture 1 0x00ffff st1 = Returns t2 st2
    /\ t1 <> t2
    /\ cacheValid st2 /\ cacheInjective st2.
Proof.
  apply (createDiceFaceTexture_distinct_pairs 1 0xff00ff 1 0x00ffff (fresh false)).
  - apply fresh_cacheValid.
  - apply fresh_cacheInjective.
  - right. discriminate.
Defined.

Lemma generateDiceFaceTexture_with_context (value color : Z) (st : State) :
  context2d st (canvases st) = true ->
  exists canvas st',
    generateDiceFaceTexture value color st = Returns (length (textures st)) st'
    /\ textures st' = textures st ++ [CanvasTexture canvas]
    /\ width canvas = 256%float /\ height canvas = 256%float
    /\ wellLaidOut canvas = true
    /\ ((1 <= value <= 6) ->
        length (pips canvas) = Z.to_nat value /\ debug st' = debug st)
    /\ (~ (1 <= value <= 6) -> length (pips canvas) = 1%nat).
Proof.
  intros Hctx.
  destruct (decide (1 <= value <= 6)) as [Hv|Hv].
  - unfold generateDiceFaceTexture, try_catch, bind at 1, getContext.
    rewrite Hctx. simpl.
    assert (value = 1 \/ value = 2 \/ value = 3 \/ value = 4 \/ value = 5 \/ value = 6)
      as Hcases by lia.
    repeat (destruct Hcases as [->|Hcases]); try subst value;
      (eexists; eexists; split; [reflexivity|]; simpl;
       split; [reflexivity|]; split; [reflexivity|]; split; [reflexivity|];
       split; [by vm_compute|]; split; [by vm_compute|]; intros Hno; lia).
  - rewrite generateDiceFaceTexture_default by (lia || done).
    eexists; eexists; split; [reflexivity|]; simpl.
    split; [reflexivity|]. split; [reflexivity|]. split; [reflexivity|].
    split; [by vm_compute|]. split; [lia|]. intros _. by vm_compute.
Qed.

(** X3.  When the canvas yields a 2D context, the texture generated for
    a value from 1 to 6 is a canvas texture on which exactly [value]
    pips are drawn, and nothing is passed to the debug logger. *)
Theorem generateDiceFaceTexture_pip_count (value color : Z) (st : State) :
  1 <= value <= 6 ->
  context2d st (canvases st) = true ->
  exists canvas st',
    generateDiceFaceTexture value color st = Returns (length (textures st)) st'
    /\ textures st' = textures st ++ [CanvasTexture canvas]
    /\ length (pips canvas) = Z.to_nat value
    /\ debug st' = debug st.
Proof.
  intros Hv Hctx.
  destruct (generateDiceFaceTexture_with_context value color st Hctx)
    as (canvas & st' & Hrun & Htex & _ & _ & _ & Hvalid & _).
  exists canvas, st'. destruct (Hvalid Hv). done.
Qed.

Lemma generateDiceFaceTexture_pip_count_witness :
  exists canvas st',
    generateDiceFaceTexture 5 0xff00ff (fresh true)
    = Returns (length (textures (fresh true))) st'
    /\ textures st' = textures (fresh true) ++ [CanvasTexture canvas]
    /\ length (pips canvas) = Z.to_nat 5
    /\ debug st' = debug (fresh true).
Proof.
  apply (generateDiceFaceTexture_pip_count 5 0xff00ff (fresh true)).
  - lia.
  - reflexivity.
Defined.

(** X4.  When the canvas yields a 2D context, the face generated for
    any value, valid or not, is a 256 by 256 canvas with between one and
    six pips, each within the canvas, no two overlapping, and the
    pattern unchanged by a half turn about the centre. *)
Theorem generateDiceFaceTexture_layout (value color : Z) (st : State) :
  context2d st (canvases st) = true ->
  exists canvas st',
    generateDiceFaceTexture value color st = Returns (length (textures st)) st'
    /\ textures st' = textures st ++ [CanvasTexture canvas]
    /\ width canvas = 256%float /\ height canvas = 256%float
    /\ (1 <= length (pips canvas) <= 6)%nat
    /\ wellLaidOut canvas = true.
Proof.
  intros Hctx.
  destruct (generateDiceFaceTexture_with_context value color st Hctx)
    as (canvas & st' & Hrun & Htex & Hw & Hh & Hlay & Hvalid & Hinvalid).
  exists canvas, st'. repeat split; try done.
  - destruct (decide (1 <= value <= 6)) as [Hv|Hv].
    + destruct (Hvalid Hv) as [-> _]. lia.
    + rewrite (Hinvalid Hv). lia.
  - destruct (decide (1 <= value <= 6)) as [Hv|Hv].
    + destruct (Hvalid Hv) as [-> _]. lia.
    + rewrite (Hinvalid Hv). lia.
Qed.

Lemma generateDiceFaceTexture_layout_witness :
  exists canvas st',
    generateDiceFaceTexture 6 0x00ffff (fresh false)
    = Returns (length (textures (fresh false))) st'
    /\ textures st' = textures (fresh false) ++ [CanvasTexture canvas]
    /\ width canvas = 256%float /\ height canvas = 256%float
    /\ (1 <= length (pips canvas) <= 6)%nat
    /\ wellLaidOut canvas = true.
Proof.
  apply (generateDiceFaceTexture_layout 6 0x00ffff (fresh false)). reflexivity.
Defined.

(** X5.  When the first canvas yields no 2D context, generation does not
    fail: the error is caught, its message is passed to the debug
    logger, and the texture returned is the fallback one, made on a
    second canvas: a 64 by 64 canvas without pips that shows the value
    as text, or, when that canvas yields no context either, a texture
    loaded from an embedded PNG data URL. *)
Theorem generateDiceFaceTexture_without_context (value color : Z) (st : State) :
  context2d st (canvases st) = false ->
  exists texture st',
    generateDiceFaceTexture value color st = Returns (length (textures st)) st'
    /\ textures st' = textures st ++ [texture]
    /\ canvases st' = S (S (canvases st))
    /\ debug st'
       = Debug.log
           "Error creating dice face texture: Could not get 2D context for dice texture"
           (debug st)
    /\ match texture with
       | CanvasTexture canvas =>
           context2d st (S (canvases st)) = true
           /\ width canvas = 64%float /\ height canvas = 64%float
           /\ pips canvas = [] /\ texts canvas = [pretty value]
       | LoadedTexture url =>
           context2d st (S (canvases st)) = false
           /\ String.prefix "data:image/png;base64," url = true
       end.
Proof.
  intros Hctx.
  unfold generateDiceFaceTexture, try_catch, bind at 1, getContext.
  rewrite Hctx. simpl.
  unfold throw, bind at 1, log. unfold createFallbackTexture, bind, getContext.
  simpl. destruct (context2d st (S (canvases st))) eqn:Hctx2; simpl;
    unfold new_Texture; simpl; eexists; eexists; (split; [reflexivity|]); simpl;
    repeat split; done.
Qed.

Lemma generateDiceFaceTexture_without_context_witness :
  exists texture st',
    generateDiceFaceTexture 4 0xff00ff
        {| diceFaceCache := ∅; textures := []; canvases := 0;
           context2d := fun n => Nat.eqb n 1; debug := debug (fresh true) |}
    = Returns 0%nat st'
    /\ textures st' = [] ++ [texture]
    /\ canvases st' = 2%nat
    /\ debug st'
       = Debug.log
           "Error creating dice face texture: Could not get 2D context for dice texture"
           (debug (fresh true))
    /\ match texture with
       | CanvasTexture canvas =>
           Nat.eqb 1 1 = true
           /\ width canvas = 64%float /\ height canvas = 64%float
           /\ pips canvas = [] /\ texts canvas = [pretty 4]
       | LoadedTexture url =>
           Nat.eqb 1 1 = false
           /\ String.prefix "data:image/png;base64," url = true
       end.
Proof.
  apply (generateDiceFaceTexture_without_context 4 0xff00ff
           {| diceFaceCache := ∅; textures := []; canvases := 0;
              context2d := fun n => Nat.eqb n 1; debug := debug (fresh true) |}).
  reflexivity.
Defined.

End TextureCache.

(** ** The materials of a die *)

Section DiceMaterials.
Import Textures Pips FaceCanvas Materials.
#[local] Open Scope Z_scope.

Lemma createMaterials_loop (color : Z) (ns : list Z) :
  forall (index : nat) (done : list nat) (st : Materials.State),
  exists ts st',
    forEach_from index ns
      (fun number _ materials =>
         texture <- onTextures (createDiceFaceTexture number color) ;;
         material <- new_MeshStandardMaterial (faceMaterial color texture) ;;
         ret (materials ++ [material]))
      done st
    = Returns (done ++ seq (length (created st)) (length ns)) st'
    /\ created st' = created st ++ map (faceMaterial color) ts
    /\ Forall2 (fun n t => diceFaceCache (textureState st') !! cacheKey n color = Some t)
               ns ts
    /\ grows (textureState st) (textureState st')
    /\ (cacheValid (textureState st) ->
        cacheValid (textureState st')
        /\ (cacheInjective (textureState st) -> cacheInjective (textureState st'))).
Proof.
  induction ns as [|n ns IH]; intros index done st.
  - exists [], st. simpl. unfold ret. rewrite !app_nil_r.
    split; [done|]. split; [done|]. split; [constructor|].
    split; [apply grows_refl|]. done.
  - destruct (createDiceFaceTexture_run n color (textureState st))
      as (t & s1 & Hrun & Hkey & Hgrows1 & _ & Hinv1).
    destruct (IH (S index) (done ++ [length (created st)])
                {| textureState := s1;
                   created := created st ++ [faceMaterial color t] |})
      as (ts & st' & Hloop & Hcreated & Hkeys & Hgrows & Hinv).
    simpl in Hloop, Hcreated, Hgrows, Hinv.
    exists (t :: ts), st'. cbn [forEach_from]. unfold bind at 1. unfold bind at 1.
    unfold onTextures at 1. rewrite Hrun.
    unfold bind at 1, new_MeshStandardMaterial at 1. simpl textureState.
    simpl created. unfold ret at 1. rewrite Hloop.
    rewrite length_app, Nat.add_1_r. rewrite <- app_assoc. simpl.
    split; [done|]. split; [by rewrite Hcreated, <- app_assoc|].
    split; [|split].
    + constructor; [|done]. by apply Hgrows.
    + by apply (grows_trans _ s1 _).
    + intros Hvalid. destruct (Hinv1 Hvalid) as [Hv1 Hi1].
      destruct (Hinv Hv1) as [Hv' Hi']. split; [done|]. auto.
Qed.

Lemma createMaterials_loop_cached (color : Z) (ns : list Z) (ts : list nat)
    (s : Textures.State) :
  Forall2 (fun n t => diceFaceCache s !! cacheKey n color = Some t) ns ts ->
  forall (index : nat) (done : list nat) (objects : list Material),
    forEach_from index ns
      (fun number _ materials =>
         texture <- onTextures (createDiceFaceTexture number color) ;;
         material <- new_MeshStandardMaterial (faceMaterial color texture) ;;
         ret (materials ++ [material]))
      done {| textureState := s; created := objects |}
    = Returns (done ++ seq (length objects) (length ns))
              {| textureState := s;
                 created := objects ++ map (faceMaterial color) ts |}.
Proof.
  induction 1 as [|n t ns ts Hkey _ IH]; intros index done objects; simpl.
  - unfold ret. by rewrite !app_nil_r.
  - unfold bind at 1. unfold bind at 1. unfold onTextures at 1. simpl textureState.
    rewrite (createDiceFaceTexture_cached n color s t Hkey).
    unfold bind at 1, new_MeshStandardMaterial at 1. simpl. unfold ret at 1.
    rewrite IH. rewrite length_app, Nat.add_1_r. by rewrite <- !app_assoc.
Qed.

(** X6.  The material loop of [createDice] creates six new material
    objects for every die, one per entry of [faceNumbers] in order, each
    with the die's colour as emissive colour and the cached texture of
    its face as emissive map.  Run again for a second die of the same
    colour it creates six further material objects, whose emissive maps
    are the same six textures, and leaves the texture module (cache,
    textures, canvases) as it was: dice of one colour share their
    textures, not their materials. *)
Theorem createMaterials_share_textures (color : Z) (st : Materials.State) :
  exists ts st1 st2,
    createMaterials color st = Returns (seq (length (created st)) 6) st1
    /\ created st1 = created st ++ map (faceMaterial color) ts
    /\ Forall2 (fun n t => diceFaceCache (textureState st1) !! cacheKey n color = Some t)
               Dice.faceNumbers ts
    /\ grows (textureState st) (textureState st1)
    /\ createMaterials color st1 = Returns (seq (length (created st) + 6) 6) st2
    /\ created st2 = created st1 ++ map (faceMaterial color) ts
    /\ textureState st2 = textureState st1.
Proof.
  destruct (createMaterials_loop color Dice.faceNumbers 0 [] st)
    as (ts & [s1 objects] & Hloop & Hcreated & Hkeys & Hgrows & _).
  cbn [textureState created] in *.
  pose proof (createMaterials_loop_cached color _ ts s1 Hkeys 0 [] objects) as Hagain.
  assert (Hlen : length objects = (length (created st) + 6)%nat).
  { rewrite Hcreated, length_app, length_map.
    by rewrite <- (Forall2_length _ _ _ Hkeys). }
  rewrite Hlen in Hagain.
  exists ts, {| textureState := s1; created := objects |},
    {| textureState := s1; created := objects ++ map (faceMaterial color) ts |}.
  split; [exact Hloop|]. split; [done|]. split; [done|]. split; [done|].
  split; [exact Hagain|]. done.
Qed.

Lemma cached_pairs_NoDup (st : Textures.State) (ps : list (Z * Z)) (ts : list nat) :
  cacheInjective st ->
  Forall2 (fun p t => diceFaceCache st !! cacheKey (fst p) (snd p) = Some t) ps ts ->
  NoDup ps -> NoDup ts.
Proof.
  intros Hinj Hall. induction Hall as [|p t ps ts Hp Hall IH]; intros Hnd.
  - constructor.
  - apply NoDup_cons in Hnd as [Hnotin Hnd]. apply NoDup_cons. split; [|auto].
    intros Hin. apply list_elem_of_lookup in Hin as [i Hi].
    destruct (Forall2_lookup_r _ _ _ _ _ Hall Hi) as (q & Hq & Hkey).
    destruct (cacheKey_inj _ _ _ _ (Hinj _ _ _ Hp Hkey)) as [H1 H2].
    apply Hnotin. apply list_elem_of_lookup. exists i.
    destruct p, q; simpl in *; by subst.
Qed.

Lemma faceNumbers_NoDup : NoDup Dice.faceNumbers.
Proof. by apply (bool_decide_unpack _). Qed.

(** X7.  Two dice of different colours share no texture: from a state
    with a valid cache that holds no texture under two keys, the two
    material loops create twelve material objects whose emissive maps
    are twelve pairwise distinct textures, all of which exist. *)
Theorem createMaterials_two_colours (color1 color2 : Z) (st : Materials.State) :
  cacheValid (textureState st) -> cacheInjective (textureState st) ->
  color1 <> color2 ->
  exists ts1 st1 ts2 st2,
    createMaterials color1 st = Returns (seq (length (created st)) 6) st1
    /\ created st1 = created st ++ map (faceMaterial color1) ts1
    /\ createMaterials color2 st1 = Returns (seq (length (created st) + 6) 6) st2
    /\ created st2 = created st1 ++ map (faceMaterial color2) ts2
    /\ length ts1 = 6%nat /\ length ts2 = 6%nat
    /\ NoDup (ts1 ++ ts2)
    /\ Forall (fun t => is_Some (textures (textureState st2) !! t)) (ts1 ++ ts2).
Proof.
  intros Hvalid Hinj Hne.
  destruct (createMaterials_loop color1 Dice.faceNumbers 0 [] st)
    as (ts1 & st1 & Hloop1 & Hcreated1 & Hkeys1 & Hgrows1 & Hinv1).
  destruct (Hinv1 Hvalid) as [Hv1 Hi1]. specialize (Hi1 Hinj).
  destruct (createMaterials_loop color2 Dice.faceNumbers 0 [] st1)
    as (ts2 & st2 & Hloop2 & Hcreated2 & Hkeys2 & [Hmono _] & Hinv2).
  destruct (Hinv2 Hv1) as [Hv2 Hi2]. specialize (Hi2 Hi1).
  assert (Hlen1 : length ts1 = 6%nat) by by rewrite <- (Forall2_length _ _ _ Hkeys1).
  assert (Hlen2 : length ts2 = 6%nat) by by rewrite <- (Forall2_length _ _ _ Hkeys2).
  exists ts1, st1, ts2, st2. split; [exact Hloop1|]. split; [done|].
  split.
  { etransitivity; [exact Hloop2|]. do 2 f_equal.
    by rewrite Hcreated1, length_app, length_map, Hlen1. }
  split; [done|]. split; [done|]. split; [done|].
  assert (Hall : Forall2
            (fun p t => diceFaceCache (textureState st2)
                          !! cacheKey (fst p) (snd p) = Some t)
            (map (fun n => (n, color1)) Dice.faceNumbers
             ++ map (fun n => (n, color2)) Dice.faceNumbers)
            (ts1 ++ ts2)).
  { apply Forall2_app.
    - apply Forall2_fmap_l. eapply Forall2_impl; [exact Hkeys1|].
      intros n t Hk. simpl. by apply Hmono.
    - apply Forall2_fmap_l. eapply Forall2_impl; [exact Hkeys2|]. done. }
  split.
  - apply (cached_pairs_NoDup (textureState st2) _ _ Hi2 Hall).
    apply NoDup_app. split; [|split].
    + apply NoDup_fmap_2; [by intros ?? [=]|]. exact faceNumbers_NoDup.
    + intros [n c] [n1 [[= -> ->] _]]%list_elem_of_fmap [n2 [[= _ Hc] _]]%list_elem_of_fmap.
      done.
    + apply NoDup_fmap_2; [by intros ?? [=]|]. exact faceNumbers_NoDup.
  - apply Forall_forall. intros t [i Hi]%list_elem_of_lookup.
    destruct (Forall2_lookup_r _ _ _ _ _ Hall Hi) as (q & _ & Hkey).
    apply lookup_lt_is_Some. by apply (Hv2 _ _ Hkey).
Qed.

Lemma createMaterials_two_colours_witness :
  exists ts1 st1 ts2 st2,
    createMaterials 0xff00ff {| textureState := fresh false; created := [] |}
    = Returns (seq (length (created {| textureState := fresh false; created := [] |})) 6)
              st1
    /\ created st1
       = created {| textureState := fresh false; created := [] |}
         ++ map (faceMaterial 0xff00ff) ts1
    /\ createMaterials 0x00ffff st1
       = Returns (seq (length (created {| textureState := fresh false;
                                          created := [] |}) + 6) 6) st2
    /\ created st2 = created st1 ++ map (faceMaterial 0x00ffff) ts2
    /\ length ts1 = 6%nat /\ length ts2 = 6%nat
    /\ NoDup (ts1 ++ ts2)
    /\ Forall (fun t => is_Some (textures (textureState st2) !! t)) (ts1 ++ ts2).
Proof.
  apply (createMaterials_two_colours 0xff00ff 0x00ffff
           {| textureState := fresh false; created := [] |}).
  - apply fresh_cacheValid.
  - apply fresh_cacheInjective.
  - discriminate.
Defined.
End DiceMaterials.

(** ** The controller's update *)

Section ControllerUpdate.
Import Three Dice FaceResolver DiceController.

Lemma update_store {B : Type} `{Rapier.RigidBody B} `{PosedBody B}
    (flag : bool) (c : Controller) (body : B) (h : store) (d : Debug.State)
    (px py pz qx qy qz qw lx ly lz : float) :
  h !! mesh_position c = Some (Vector3 px py pz) ->
  h !! mesh_quaternion (die c) = Some (Quaternion qx qy qz qw) ->
  h !! light_position c = Some (Vector3 lx ly lz) ->
  mesh_position c <> light_position c ->
  let pos := translation body in
  let rot := rotation body in
  let h' :=
    <[light_position c :=
        Vector3 (Rapier.x pos) (Rapier.y pos + 2) (Rapier.z pos)]>
      (<[mesh_quaternion (die c) := Quaternion (x rot) (y rot) (z rot) (w rot)]>
         (<[mesh_position c :=
              Vector3 (Rapier.x pos) (Rapier.y pos) (Rapier.z pos)]> h)) in
  update flag c body (h, d)
  = if flag && isAtRest body
    then Returns tt
           (h' ++ vec3 (upVector (x rot, y rot, z rot, w rot)) :: map vec3 normals,
            Debug.log ("Dice value: "
                       +:+ showValue (faceNumbers !! faceIndex (x rot, y rot, z rot, w rot)))
                      d)
    else Returns tt (h', d).
Proof.
  intros Hpos Hquat Hlight Hne pos rot h'.
  assert (Hpq : mesh_position c <> mesh_quaternion (die c)) by congruence.
  assert (Hlq : light_position c <> mesh_quaternion (die c)) by congruence.
  pose proof (lookup_lt_Some _ _ _ Hpos) as Hp.
  pose proof (lookup_lt_Some _ _ _ Hquat) as Hq.
  pose proof (lookup_lt_Some _ _ _ Hlight) as Hl.
  unfold update. fold pos rot.
  unfold bind at 1, onStore at 1, Vector3_set. simpl fst. rewrite Hpos. simpl snd.
  unfold bind at 1, onStore at 1, Quaternion_set. simpl fst.
  rewrite list_lookup_insert_ne by done. rewrite Hquat. simpl snd.
  unfold bind at 1, onStore at 1, Vector3_copy. simpl fst.
  rewrite !list_lookup_insert_ne by done. rewrite Hlight.
  rewrite list_lookup_insert_eq by done. simpl snd.
  unfold bind at 1, onStore at 1, Vector3_add_y. simpl fst.
  rewrite list_lookup_insert_eq by (rewrite !length_insert; done).
  rewrite list_insert_insert_eq. simpl snd. fold h'.
  destruct flag; cbn [andb]; [|reflexivity].
  destruct (isAtRest body); [|reflexivity].
  unfold bind, onStore. simpl fst.
  rewrite (getCurrentValue_run (die c) h' (x rot) (y rot) (z rot) (w rot)).
  - reflexivity.
  - unfold h'. rewrite list_lookup_insert_ne by done.
    rewrite list_lookup_insert_eq by (rewrite length_insert; done). done.
Qed.

(** X8.  With the debug flag of the dice off, [update] only writes the
    body's pose into the scene: the mesh position becomes the body's
    translation, the mesh quaternion the body's rotation, the light
    position the translation raised by 2 along y; no object is
    allocated, every other object is unchanged and the debug module is
    untouched.  [getValue] called next reads the face of the body's
    rotation. *)
Theorem update_then_getValue {B : Type} `{Rapier.RigidBody B} `{PosedBody B}
    (c : Controller) (body : B) (h : store) (d : Debug.State)
    (px py pz qx qy qz qw lx ly lz : float) :
  h !! mesh_position c = Some (Vector3 px py pz) ->
  h !! mesh_quaternion (die c) = Some (Quaternion qx qy qz qw) ->
  h !! light_position c = Some (Vector3 lx ly lz) ->
  mesh_position c <> light_position c ->
  let pos := translation body in
  let rot := rotation body in
  exists h',
    update false c body (h, d) = Returns tt (h', d)
    /\ length h' = length h
    /\ h' !! mesh_position c
       = Some (Vector3 (Rapier.x pos) (Rapier.y pos) (Rapier.z pos))
    /\ h' !! mesh_quaternion (die c)
       = Some (Quaternion (x rot) (y rot) (z rot) (w rot))
    /\ h' !! light_position c
       = Some (Vector3 (Rapier.x pos) (Rapier.y pos + 2) (Rapier.z pos))
    /\ (forall r, r <> mesh_position c -> r <> mesh_quaternion (die c) ->
                  r <> light_position c -> h' !! r = h !! r)
    /\ exists locals,
         (update false c body ;;; getValue c) (h, d)
         = Returns (faceNumbers !! faceIndex (x rot, y rot, z rot, w rot))
                   (h' ++ locals, d).
Proof.
  intros Hpos Hquat Hlight Hne pos rot.
  assert (Hpq : mesh_position c <> mesh_quaternion (die c)) by congruence.
  assert (Hlq : light_position c <> mesh_quaternion (die c)) by congruence.
  pose proof (lookup_lt_Some _ _ _ Hpos) as Hp.
  pose proof (lookup_lt_Some _ _ _ Hquat) as Hq.
  pose proof (lookup_lt_Some _ _ _ Hlight) as Hl.
  pose proof (update_store false c body h d _ _ _ _ _ _ _ _ _ _
                Hpos Hquat Hlight Hne) as Hrun.
  simpl in Hrun. fold pos rot in Hrun.
  eexists. split; [exact Hrun|].
  split; [by rewrite !length_insert|].
  split; [by rewrite !list_lookup_insert_ne by done;
             rewrite list_lookup_insert_eq by done|].
  assert (Hq' : <[light_position c :=
                    Vector3 (Rapier.x pos) (Rapier.y pos + 2) (Rapier.z pos)]>
                  (<[mesh_quaternion (die c) :=
                       Quaternion (x rot) (y rot) (z rot) (w rot)]>
                     (<[mesh_position c :=
                          Vector3 (Rapier.x pos) (Rapier.y pos) (Rapier.z pos)]> h))
                !! mesh_quaternion (die c)
                = Some (Quaternion (x rot) (y rot) (z rot) (w rot))).
  { rewrite list_lookup_insert_ne by done.
    by rewrite list_lookup_insert_eq by (rewrite length_insert; done). }
  split; [exact Hq'|].
  split; [by rewrite list_lookup_insert_eq by (rewrite !length_insert; done)|].
  split; [intros r H1 H2 H3; by rewrite !list_lookup_insert_ne by done|].
  eexists. unfold bind. rewrite Hrun. unfold getValue, onStore. simpl fst.
  rewrite (getCurrentValue_run (die c) _ _ _ _ _ Hq'). reflexivity.
Qed.

Lemma update_then_getValue_witness :
  let pos := translation flipped in
  let rot := rotation flipped in
  exists h',
    update false controller0 flipped (store0, debug0) = Returns tt (h', debug0)
    /\ length h' = length store0
    /\ h' !! mesh_position controller0
       = Some (Vector3 (Rapier.x pos) (Rapier.y pos) (Rapier.z pos))
    /\ h' !! mesh_quaternion (die controller0)
       = Some (Quaternion (x rot) (y rot) (z rot) (w rot))
    /\ h' !! light_position controller0
       = Some (Vector3 (Rapier.x pos) (Rapier.y pos + 2) (Rapier.z pos))
    /\ (forall r, r <> mesh_position controller0 ->
                  r <> mesh_quaternion (die controller0) ->
                  r <> light_position controller0 -> h' !! r = store0 !! r)
    /\ exists locals,
         (update false controller0 flipped ;;; getValue controller0)
           (store0, debug0)
         = Returns (faceNumbers !! faceIndex (x rot, y rot, z rot, w rot))
                   (h' ++ locals, debug0).
Proof.
  apply (update_then_getValue controller0 flipped store0 debug0
           0 5 0 0 0 0 1 0 0 0); [reflexivity|reflexivity|reflexivity|].
  simpl. lia.
Defined.

(** X9.  With the debug flag of the dice on, [update] never reaches the
    line that logs the dice value: [isAtRest] is false on every body,
    so [update] does the same three writes as with the flag off, passes
    nothing to the debug logger and leaves the debug module as it was,
    whether or not the body moves. *)
Theorem update_debug_never_logs {B : Type} `{Rapier.RigidBody B} `{PosedBody B}
    (c : Controller) (body : B) (h : store) (d : Debug.State)
    (px py pz qx qy qz qw lx ly lz : float) :
  h !! mesh_position c = Some (Vector3 px py pz) ->
  h !! mesh_quaternion (die c) = Some (Quaternion qx qy qz qw) ->
  h !! light_position c = Some (Vector3 lx ly lz) ->
  mesh_position c <> light_position c ->
  exists h',
    update true c body (h, d) = Returns tt (h', d)
    /\ update false c body (h, d) = Returns tt (h', d)
    /\ length h' = length h
    /\ forall world, update true c body world = update false c body world.
Proof.
  intros Hpos Hquat Hlight Hne.
  pose proof (update_store true c body h d _ _ _ _ _ _ _ _ _ _
                Hpos Hquat Hlight Hne) as Hon.
  pose proof (update_store false c body h d _ _ _ _ _ _ _ _ _ _
                Hpos Hquat Hlight Hne) as Hoff.
  cbv zeta in Hon, Hoff. cbn [andb] in Hon, Hoff.
  rewrite (isAtRest_false B _ body) in Hon.
  eexists. split; [exact Hon|]. split; [exact Hoff|].
  split; [by rewrite !length_insert|].
  intros world. unfold update.
  pose proof (isAtRest_false B _ body) as Hrest.
  destruct (isAtRest body); [discriminate Hrest|reflexivity].
Qed.

Lemma update_debug_never_logs_witness :
  exists h',
    update true controller0 flipped (store0, debug0) = Returns tt (h', debug0)
    /\ update false controller0 flipped (store0, debug0) = Returns tt (h', debug0)
    /\ length h' = length store0
    /\ forall world,
         update true controller0 flipped world
         = update false controller0 flipped world.
Proof.
  apply (update_debug_never_logs controller0 flipped store0 debug0
           0 5 0 0 0 0 1 0 0 0); [reflexivity|reflexivity|reflexivity|].
  simpl. lia.
Defined.
End ControllerUpdate.

(** ** Successive rolls *)

Section SuccessiveRolls.
Import Main RollTrace Rolls.

Lemma rolledFrom_length (draws : nat -> float) (dice : list Rapier.Recorded) :
  forall k index, length (rolledFrom draws k index dice) = length dice.
Proof. induction dice as [|d dice IH]; intros k index; simpl; [done|]. by rewrite IH. Qed.

Lemma rollDice_run (draws : nat -> float) (k : nat) (dice : list Rapier.Recorded) :
  rollDice dice {| draws := draws; drawn := k |}
  = Returns (rolledFrom draws k 0 dice)
            {| draws := draws; drawn := 6 * length dice + k |}.
Proof. unfold rollDice, forEach. by rewrite rollDice_from_run. Qed.

Lemma rollCalls_ext (index : nat) (r r' : nat -> float) :
  (forall j, r j = r' j) -> rollCalls index r = rollCalls index r'.
Proof. intros Heq. unfold rollCalls. by rewrite !Heq. Qed.

Lemma drawIndex_inj (n k r i j r' i' j' : nat) :
  (i < n)%nat -> (i' < n)%nat -> (j < 6)%nat -> (j' < 6)%nat ->
  drawIndex n k r i j = drawIndex n k r' i' j' ->
  r = r' /\ i = i' /\ j = j'.
Proof.
  unfold drawIndex. intros Hi Hi' Hj Hj' Heq.
  assert (r = r') as <-.
  { destruct (Nat.lt_trichotomy r r') as [Hlt|[->|Hlt]]; [|done|]; exfalso; nia. }
  lia.
Qed.

(** X10.  Rolling a list of recording bodies [times] times in a row
    returns; each roll consumes six numbers of [Math.random()] per die;
    a die's calls are its earlier calls followed by one block of five
    calls per roll, in roll order; its velocity readings are unchanged;
    and no number drawn is used for two dice, two rolls or two
    components. *)
Theorem rollTimes_calls (times : nat) (draws : nat -> float) :
  forall (k : nat) (dice : list Rapier.Recorded) (i : nat) (die : Rapier.Recorded),
    dice !! i = Some die ->
    exists dice',
      rollTimes times dice {| draws := draws; drawn := k |}
      = Returns dice' {| draws := draws; drawn := 6 * length dice * times + k |}
      /\ length dice' = length dice
      /\ exists die',
           dice' !! i = Some die'
           /\ Rapier.calls die'
              = Rapier.calls die
                ++ concat (map (fun r => rollCalls i
                                  (fun j => draws (drawIndex (length dice) k r i j)))
                               (seq 0 times))
           /\ Rapier.linvel_reading die' = Rapier.linvel_reading die
           /\ Rapier.angvel_reading die' = Rapier.angvel_reading die
           /\ (forall r j i' r' j',
                 (i' < length dice)%nat -> (j < 6)%nat -> (j' < 6)%nat ->
                 drawIndex (length dice) k r i j
                 = drawIndex (length dice) k r' i' j' ->
                 r = r' /\ i = i' /\ j = j').
Proof.
  induction times as [|times IH]; intros k dice i die Hi.
  - exists dice. simpl. unfold ret. split; [do 2 f_equal; lia|]. split; [done|].
    exists die. rewrite app_nil_r. repeat split; try done;
      eapply (drawIndex_inj (length dice) k r i j r' i' j'); eauto;
      by eapply lookup_lt_Some.
  - cbn [rollTimes]. unfold bind. rewrite rollDice_run.
    pose proof (rolledFrom_lookup draws dice k 0 i die Hi) as Hi1.
    destruct (IH (6 * length dice + k) _ i _ Hi1) as (dice' & Hrun & Hlen & die' & Hi' & Hcalls & Hl & Ha & _).
    rewrite rolledFrom_length in Hrun, Hlen, Hcalls.
    exists dice'. rewrite Hrun. split; [do 2 f_equal; lia|]. split; [done|].
    exists die'. split; [done|]. split;
      [|repeat split; try done;
        eapply (drawIndex_inj (length dice) k r i j r' i' j'); eauto;
        by eapply lookup_lt_Some].
    rewrite Hcalls. simpl Rapier.calls. rewrite <- app_assoc. f_equal.
    cbn [seq map concat]. f_equal.
    + apply rollCalls_ext. intros j. unfold drawIndex. f_equal. lia.
    + f_equal. rewrite <- seq_shift. rewrite map_map. apply map_ext. intros r.
      apply rollCalls_ext. intros j. unfold drawIndex. f_equal. lia.
Qed.

Lemma rollTimes_calls_witness :
  exists dice',
    rollTimes 2 [Rapier.still; Rapier.still]
              {| draws := fun _ => 0.5%float; drawn := 0 |}
    = Returns dice' {| draws := fun _ => 0.5%float; drawn := 6 * 2 * 2 + 0 |}
    /\ length dice' = 2%nat
    /\ exists die',
         dice' !! 1%nat = Some die'
         /\ Rapier.calls die'
            = [] ++ concat (map (fun r => rollCalls 1
                                  (fun j => (fun _ => 0.5%float) (drawIndex 2 0 r 1 j)))
                               (seq 0 2))
         /\ Rapier.linvel_reading die' = Rapier.linvel_reading (Rapier.still)
         /\ Rapier.angvel_reading die' = Rapier.angvel_reading (Rapier.still)
         /\ (forall r j i' r' j',
               (i' < 2)%nat -> (j < 6)%nat -> (j' < 6)%nat ->
               drawIndex 2 0 r 1 j = drawIndex 2 0 r' i' j' ->
               r = r' /\ 1%nat = i' /\ j = j').
Proof.
  apply (rollTimes_calls 2 (fun _ => 0.5%float) 0
           [Rapier.still; Rapier.still] 1 (Rapier.still)).
  reflexivity.
Defined.
End SuccessiveRolls.

(** ** The debug panel *)

Section DebugPanel.
Import Debug Panel.

Lemma append_cons (x : ascii) (a b : string) :
  String x a +:+ b = String x (a +:+ b).
Proof. reflexivity. Qed.

Lemma append_assoc (a b c : string) : (a +:+ b) +:+ c = a +:+ (b +:+ c).
Proof. induction a as [|x a IH]; [done|]. by rewrite !append_cons, IH. Qed.

Lemma append_nil_r (a : string) : a +:+ EmptyString = a.
Proof. induction a as [|x a IH]; [done|]. by rewrite append_cons, IH. Qed.

Lemma prefix_nil (s : string) : String.prefix EmptyString s = true.
Proof. by destruct s. Qed.

Lemma prefix_append (s a t : string) :
  String.prefix s a = true -> String.prefix s (a +:+ t) = true.
Proof.
  revert a. induction s as [|x s IH]; intros a.
  - intros _. by destruct (a +:+ t).
  - destruct a as [|y a]; [done|]. rewrite append_cons. simpl.
    destruct (ascii_dec x y); [apply IH|done].
Qed.

(** [<br>] does not begin inside a piece free of it and end in a
    separator that follows. *)
Lemma prefix_break_straddle (c : ascii) (a t : string) :
  hasBreak (String c a) = false ->
  String.prefix "<br>" (String c a +:+ "<br>" +:+ t) = false.
Proof.
  intros Hfree. cbn [hasBreak] in Hfree. apply orb_false_iff in Hfree as [Hp _].
  destruct a as [|c1 [|c2 [|c3 a]]]; rewrite ?append_cons;
    change (EmptyString +:+ "<br>" +:+ t)
      with (String "<" (String "b" (String "r" (String ">" t))));
    cbn [String.prefix] in *;
    repeat (destruct (ascii_dec _ _); try done).
  all: rewrite ?prefix_nil in *; try done.
Qed.

Lemma prefix_break_here (b : string) :
  String.prefix "<br>" (String "<" (String "b" (String "r" (String ">" b)))) = true.
Proof. cbn. apply prefix_nil. Qed.

Lemma split_go_break (b cur : string) :
  split_go "<br>" 0 (String "<" (String "b" (String "r" (String ">" b)))) cur
  = cur :: split_go "<br>" 0 b EmptyString.
Proof. cbn [split_go]. rewrite prefix_break_here. reflexivity. Qed.

Lemma split_go_piece (a : string) :
  forall (b cur : string),
    hasBreak a = false ->
    split_go "<br>" 0 (a +:+ "<br>" +:+ b) cur
    = (cur +:+ a) :: split_go "<br>" 0 b EmptyString.
Proof.
  induction a as [|c a IH]; intros b cur Hfree.
  - change (EmptyString +:+ "<br>" +:+ b)
      with (String "<" (String "b" (String "r" (String ">" b)))).
    rewrite append_nil_r. apply split_go_break.
  - pose proof (prefix_break_straddle c a b Hfree) as Hno.
    rewrite append_cons in *.
    cbn [split_go]. rewrite Hno.
    cbn [hasBreak] in Hfree. apply orb_false_iff in Hfree as [_ Hfree].
    rewrite (IH b _ Hfree). by rewrite append_assoc.
Qed.

Lemma split_go_last (a : string) :
  forall cur : string,
    hasBreak a = false ->
    split_go "<br>" 0 a cur = [cur +:+ a].
Proof.
  induction a as [|c a IH]; intros cur Hfree.
  - by rewrite append_nil_r.
  - cbn [hasBreak] in Hfree. apply orb_false_iff in Hfree as [Hp Hfree].
    cbn [split_go]. rewrite Hp. rewrite (IH _ Hfree). by rewrite append_assoc.
Qed.

(** Joining lines free of [<br>] and splitting again gives the lines
    back. *)
Lemma split_join (l : list string) :
  l <> [] -> Forall (fun piece => hasBreak piece = false) l ->
  split "<br>" (join "<br>" l) = l.
Proof.
  unfold split. induction l as [|piece l IH]; intros Hne Hfree; [done|].
  apply Forall_cons in Hfree as [Hp Hl].
  destruct l as [|piece' l].
  - cbn [join]. by apply split_go_last.
  - change (join "<br>" (piece :: piece' :: l))
      with (piece +:+ "<br>" +:+ join "<br>" (piece' :: l)).
    rewrite split_go_piece by done.
    change (EmptyString +:+ piece) with piece.
    f_equal. by apply IH.
Qed.

Lemma hasBreak_prefix (c : ascii) (p t : string) :
  String.prefix "<br>" (String c (p +:+ t)) = false ->
  String.prefix "<br>" (String c p) = false.
Proof.
  intros Hno. destruct (String.prefix "<br>" (String c p)) eqn:Hp; [|done].
  rewrite <- append_cons in Hno.
  by rewrite (prefix_append "<br>" (String c p) t Hp) in Hno.
Qed.

(** Every piece [split] produces is free of [<br>]; the first is what
    was pending followed by a prefix of the input. *)
Lemma split_go_free (s : string) :
  forall (skip : nat) (cur : string),
  exists p ps,
    split_go "<br>" skip s cur = (cur +:+ p) :: ps
    /\ hasBreak p = false
    /\ Forall (fun piece => hasBreak piece = false) ps
    /\ (skip = 0%nat -> exists t, s = p +:+ t).
Proof.
  induction s as [|c s IH]; intros skip cur.
  - exists EmptyString, []. rewrite append_nil_r.
    split; [by destruct skip|]. split; [done|]. split; [constructor|].
    intros _. by exists EmptyString.
  - destruct skip as [|skip].
    + cbn [split_go]. destruct (String.prefix "<br>" (String c s)) eqn:Hp.
      * destruct (IH (String.length "<br>" - 1)%nat EmptyString) as (p & ps & Hrun & Hfp & Hfps & _).
        exists EmptyString, (p :: ps). rewrite Hrun, append_nil_r.
        change (EmptyString +:+ p) with p.
        split; [done|]. split; [done|]. split; [by constructor|].
        intros _. by exists (String c s).
      * destruct (IH 0%nat (cur +:+ String c EmptyString)) as (p & ps & Hrun & Hfp & Hfps & Ht).
        destruct (Ht eq_refl) as [t ->].
        exists (String c p), ps. rewrite Hrun, append_assoc.
        split; [done|]. split.
        -- cbn [hasBreak]. rewrite Hfp, orb_false_r.
           by apply (hasBreak_prefix c p t).
        -- split; [done|]. intros _. by exists t.
    + cbn [split_go]. destruct (IH skip cur) as (p & ps & Hrun & Hfp & Hfps & _).
      exists p, ps. split; [done|]. split; [done|]. split; [done|]. done.
Qed.

Lemma lines_free (innerHTML : string) :
  lines innerHTML <> []
  /\ Forall (fun piece => hasBreak piece = false) (lines innerHTML).
Proof.
  unfold lines, split.
  destruct (split_go_free innerHTML 0 EmptyString) as (p & ps & -> & Hfp & Hfps & _).
  split; [done|]. by constructor.
Qed.

(** X11.  With debug mode on and a panel present, [log] appends the
    message to the console and leaves at most ten lines in the panel;
    when the new line, time stamp included, contains no [<br>], the
    panel shows it first, followed by the first nine of the lines shown
    before. *)
Theorem log_panel_lines (message innerHTML : string) (st : State) :
  debugEnabled st = true ->
  debugElement st = Some innerHTML ->
  exists innerHTML',
    debugElement (log message st) = Some innerHTML'
    /\ console (log message st) = console st ++ ["[DEBUG] " +:+ message]
    /\ (length (lines innerHTML') <= 10)%nat
    /\ (hasBreak (clock st +:+ ": " +:+ message) = false ->
        lines innerHTML'
        = (clock st +:+ ": " +:+ message) :: take 9 (lines innerHTML)).
Proof.
  intros Hon Hpanel. unfold log. rewrite Hon, Hpanel. simpl.
  eexists. split; [reflexivity|]. split; [reflexivity|].
  set (all := split "<br>" (clock st +:+ ": " +:+ message +:+ "<br>" +:+ innerHTML)).
  assert (Hall : all <> [] /\ Forall (fun piece => hasBreak piece = false) all)
    by apply lines_free.
  destruct Hall as [Hne Hfree].
  assert (Hround : lines (join "<br>" (take 10 all)) = take 10 all).
  { apply split_join.
    - destruct all; [done|]. done.
    - by apply Forall_take. }
  rewrite Hround. split.
  - rewrite length_take. lia.
  - intros Hline. unfold all, split.
    replace (clock st +:+ ": " +:+ message +:+ "<br>" +:+ innerHTML)
      with ((clock st +:+ ": " +:+ message) +:+ "<br>" +:+ innerHTML)
      by (by rewrite !append_assoc).
    rewrite split_go_piece by done. reflexivity.
Qed.

Lemma log_panel_lines_witness :
  exists innerHTML',
    debugElement (log "rolled"
      {| debugEnabled := true; debugElement := Some "a<br>b";
         console := []; clock := "12:00:00" |}) = Some innerHTML'
    /\ console (log "rolled"
         {| debugEnabled := true; debugElement := Some "a<br>b";
            console := []; clock := "12:00:00" |})
       = [] ++ ["[DEBUG] " +:+ "rolled"]
    /\ (length (lines innerHTML') <= 10)%nat
    /\ (hasBreak ("12:00:00" +:+ ": " +:+ "rolled") = false ->
        lines innerHTML'
        = ("12:00:00" +:+ ": " +:+ "rolled") :: take 9 (lines "a<br>b")).
Proof.
  apply (log_panel_lines "rolled" "a<br>b"
           {| debugEnabled := true; debugElement := Some "a<br>b";
              console := []; clock := "12:00:00" |}); reflexivity.
Defined.

(** X12.  [error] always writes to [console.error], whether or not
    debug mode is on, and never to [console.log]; with debug mode off or
    no panel it changes nothing else; with debug mode on and a panel it
    leaves at most ten lines in the panel, the first of them the red
    line carrying the time stamp, the message and the error's own
    message if one was passed, followed by the first nine of the lines
    shown before, provided the new line contains no [<br>]. *)
Theorem error_reports (message : string) (err : option string)
    (st : DebugError.State) :
  let st' := DebugError.error message err st in
  let errorMsg :=
    match err with
    | Some err_message => message +:+ ": " +:+ err_message
    | None => message
    end in
  let line :=
    DebugError.span +:+ clock (DebugError.debug st) +:+ ": ERROR: "
    +:+ errorMsg +:+ "</span>" in
  DebugError.console_error st'
  = DebugError.console_error st ++ [("[ERROR] " +:+ message, err)]
  /\ console (DebugError.debug st') = console (DebugError.debug st)
  /\ (debugEnabled (DebugError.debug st) = false
      \/ debugElement (DebugError.debug st) = None ->
      DebugError.debug st' = DebugError.debug st)
  /\ (forall innerHTML,
        debugEnabled (DebugError.debug st) = true ->
        debugElement (DebugError.debug st) = Some innerHTML ->
        exists innerHTML',
          debugElement (DebugError.debug st') = Some innerHTML'
          /\ (length (lines innerHTML') <= 10)%nat
          /\ (hasBreak line = false ->
              lines innerHTML' = line :: take 9 (lines innerHTML))).
Proof.
  intros st' errorMsg line. subst st'. unfold DebugError.error.
  destruct st as [d reported]. simpl DebugError.debug. simpl DebugError.console_error.
  repeat split.
  - by destruct (debugEnabled d), (debugElement d).
  - by destruct (debugEnabled d), (debugElement d).
  - intros [Hoff | Hnone].
    + by rewrite Hoff.
    + rewrite Hnone. by destruct (debugEnabled d).
  - intros innerHTML Hon Hpanel. rewrite Hon, Hpanel.
    simpl DebugError.debug. simpl debugElement.
    eexists. split; [reflexivity|].
    fold errorMsg.
    set (all := split "<br>" _).
    assert (Hall : all <> [] /\ Forall (fun piece => hasBreak piece = false) all)
      by apply lines_free.
    destruct Hall as [Hne Hfree].
    assert (Hround : lines (join "<br>" (take 10 all)) = take 10 all).
    { apply split_join.
      - destruct all; [done|]. done.
      - by apply Forall_take. }
    rewrite Hround. split.
    + rewrite length_take. lia.
    + intros Hline. unfold all, split.
      replace (DebugError.span +:+ clock d +:+ ": ERROR: " +:+ errorMsg
               +:+ "</span><br>" +:+ innerHTML)
        with (line +:+ "<br>" +:+ innerHTML).
      * rewrite split_go_piece by done. reflexivity.
      * unfold line. simpl DebugError.debug.
        by rewrite !append_assoc.
Qed.
End DebugPanel.

(** ** Loading a library, with its fallback *)

Section LibraryLoading.
Import Loader.

(** X13.  [importLibrary] requests the fallback URL only after the
    primary request has failed, and makes at most two requests: it
    returns the primary module after one request, otherwise the fallback
    module after two, and when both fail it throws an error whose
    message names the library and neither underlying failure. *)
Theorem importLibrary_fallback (url fallbackUrl name : string) (st : State) :
  let n := length (requested st) in
  let debug1 := Debug.log ("Loading " +:+ name +:+ " from " +:+ url) (debug st) in
  let debug2 :=
    Debug.log ("Primary " +:+ name +:+ " load failed, trying fallback: "
               +:+ fallbackUrl) debug1 in
  (forall module,
     responses st n url = Some module ->
     importLibrary url fallbackUrl name st
     = Returns module
         {| responses := responses st; requested := requested st ++ [url];
            debug := debug1 |})
  /\ (forall module,
        responses st n url = None ->
        responses st (S n) fallbackUrl = Some module ->
        importLibrary url fallbackUrl name st
        = Returns module
            {| responses := responses st;
               requested := requested st ++ [url; fallbackUrl];
               debug := debug2 |})
  /\ (responses st n url = None ->
      responses st (S n) fallbackUrl = None ->
      importLibrary url fallbackUrl name st
      = Throws ("Failed to load " +:+ name
                +:+ " from both primary and fallback sources.")
          {| responses := responses st;
             requested := requested st ++ [url; fallbackUrl];
             debug := debug2 |}).
Proof.
  intros n debug1 debug2. subst n.
  unfold importLibrary, try_catch, bind, log, import, throw. simpl.
  repeat split.
  - intros module H1. by rewrite H1.
  - intros module H1 H2. rewrite H1. simpl.
    rewrite length_app, Nat.add_1_r. simpl.
    rewrite H2. by rewrite <- app_assoc.
  - intros H1 H2. rewrite H1. simpl.
    rewrite length_app, Nat.add_1_r. simpl.
    rewrite H2. by rewrite <- app_assoc.
Qed.

End LibraryLoading.

(** ** Orientations with a component that is not a number *)

Section NotANumber.
Import Three Dice FaceResolver NaN.

Lemma is_nan_isNaN (a : float) : is_nan a = true -> isNaN a.
Proof.
  unfold is_nan, isNaN. rewrite FloatAxioms.eqb_spec.
  destruct (Prim2SF a) as [s| s| |s m e]; try done.
  - by destruct s.
  - unfold SFeqb, SFcompare. destruct s; simpl.
    + by rewrite Z.compare_refl, Pos.compare_cont_refl.
    + by rewrite Z.compare_refl, Pos.compare_cont_refl.
Qed.

Lemma isNaN_mul_l (a b : float) : isNaN a -> isNaN (a * b).
Proof.
  unfold isNaN. intros Ha. rewrite FloatAxioms.mul_spec, Ha. reflexivity.
Qed.

Lemma isNaN_mul_r (a b : float) : isNaN b -> isNaN (a * b).
Proof.
  unfold isNaN. intros Hb. rewrite FloatAxioms.mul_spec, Hb.
  by destruct (Prim2SF a).
Qed.

Lemma isNaN_add_l (a b : float) : isNaN a -> isNaN (a + b).
Proof.
  unfold isNaN. intros Ha. rewrite FloatAxioms.add_spec, Ha. reflexivity.
Qed.

Lemma isNaN_add_r (a b : float) : isNaN b -> isNaN (a + b).
Proof.
  unfold isNaN. intros Hb. rewrite FloatAxioms.add_spec, Hb.
  by destruct (Prim2SF a).
Qed.

Lemma isNaN_sub_l (a b : float) : isNaN a -> isNaN (a - b).
Proof.
  unfold isNaN. intros Ha. rewrite FloatAxioms.sub_spec, Ha. reflexivity.
Qed.

Lemma isNaN_sub_r (a b : float) : isNaN b -> isNaN (a - b).
Proof.
  unfold isNaN. intros Hb. rewrite FloatAxioms.sub_spec, Hb.
  by destruct (Prim2SF a).
Qed.

Lemma ltb_isNaN (m a : float) : isNaN a -> (m <? a)%float = false.
Proof.
  unfold isNaN. intros Ha. rewrite FloatAxioms.ltb_spec, Ha.
  by destruct (Prim2SF m).
Qed.


Create HintDb nan.
#[local] Hint Resolve isNaN_mul_l isNaN_mul_r isNaN_add_l isNaN_add_r
  isNaN_sub_l isNaN_sub_r : nan.

Lemma upVector_isNaN (x y z w : float) :
  someNaN x y z w = true ->
  let '(ux, uy, uz) := upVector (x, y, z, w) in
  isNaN ux /\ isNaN uy /\ isNaN uz.
Proof.
  unfold someNaN. intros H.
  apply orb_true_iff in H as [H | H];
    [apply orb_true_iff in H as [H | H];
       [apply orb_true_iff in H as [H | H]|]|];
    apply is_nan_isNaN in H;
    unfold upVector, rotate; repeat split; eauto 8 with nan.
Qed.

(** X14.  When a component of the die's quaternion is NaN, every
    alignment the loop computes is NaN, no comparison succeeds, and
    [getCurrentValue] returns 1, the label at index 0. *)
Theorem getCurrentValue_not_a_number (d : Die) (h : store) (x y z w : float) :
  h !! mesh_quaternion d = Some (Quaternion x y z w) ->
  someNaN x y z w = true ->
  exists h', getCurrentValue d h = Returns (Some 1%Z) h'.
Proof.
  intros Hq Hnan. rewrite (getCurrentValue_run d h x y z w Hq).
  eexists. f_equal.
  unfold faceIndex.
  pose proof (upVector_isNaN x y z w Hnan) as Hup.
  destruct (upVector (x, y, z, w)) as [[ux uy] uz].
  destruct Hup as (Hx & _ & _).
  rewrite scan_keep; [reflexivity|].
  intros [[nx ny] nz] _. apply ltb_isNaN. unfold dot3.
  auto with nan.
Qed.

Lemma getCurrentValue_not_a_number_witness :
  exists h',
    getCurrentValue {| mesh_quaternion := 0%nat |} [Quaternion 0 nan 0 1]
    = Returns (Some 1%Z) h'.
Proof.
  apply (getCurrentValue_not_a_number {| mesh_quaternion := 0%nat |}
           [Quaternion 0 nan 0 1] 0 nan 0 1); reflexivity.
Defined.



End NotANumber.
